(** * PLUTO / CTB_109: the supernova-remnant initial condition and the
    numerical core it feeds.

    The repository holds two versions of the user routine [Init]
    (CTB_109/init.c and an unnamed later revision), a [definitions.h]
    and the makefile of the relativistic hydrodynamics module.  The two
    [Init] routines are embedded below over IEEE-754 binary64 numbers
    (Rocq's primitive floats), statement by statement.  The solver core
    (constrained transport, reconstruction) is named by the
    makefile and [definitions.h] only; the parts of it reasoned about
    here are modelled in exact rational arithmetic, with the same
    stencils in binary64 beside them. *)

From Stdlib Require Import ZArith List Bool Floats QArith Qminmax Lia Lqa.
Import ListNotations.

Set Warnings "-inexact-float,-abstract-large-number".

(** ** Shared data model *)

(** Variable labels indexing the array [us] (pluto.h: RHO, VX1, ...).
    The header is not part of the sources; the labels are kept symbolic
    and are pairwise distinct array slots. *)
Inductive var : Set :=
  | RHO | VX1 | VX2 | VX3 | BX1 | BX2 | BX3 | PRS | AX1 | AX2 | AX3.

Definition var_eq_dec (a b : var) : {a = b} + {a <> b}.
Proof. decide equality. Defined.

(** Labels of the runtime parameters read through [g_inputParam]. *)
Inductive param : Set :=
  | E_EJ | M_EJ | R_EJ | N_H | U_AM | ETA | W_C | N_PI | S_PI
  | Temp | GAMMA | BMAG | THETA | PHI.

(** [GEOMETRY] of definitions.h. *)
Inductive geometry : Set := CARTESIAN | CYLINDRICAL | POLAR | SPHERICAL.

(** [DIMENSIONS] of definitions.h. *)
Inductive dimensions : Set := DIM1 | DIM2 | DIM3.

(** The compile-time switches the two [Init] routines test. *)
Record Config : Set := {
  GEOMETRY         : geometry;
  DIMENSIONS       : dimensions;
  BACKGROUND_FIELD : bool;   (* [true] is YES *)
  ADD_TURBULENCE   : bool    (* [true] is YES *)
}.

(** definitions.h as found in the sources (part_000): Cartesian, two
    dimensions; BACKGROUND_FIELD and ADD_TURBULENCE are not defined
    there, so both [#if ... == YES] tests are false. *)
Definition definitions_h : Config :=
  {| GEOMETRY := CARTESIAN; DIMENSIONS := DIM2;
     BACKGROUND_FIELD := false; ADD_TURBULENCE := false |}.

Module Double.

Open Scope float_scope.

(** The array [double *us], one slot per label. *)
Definition state := var -> float.

(** [us[k] = v;] *)
Definition upd (us : state) (k : var) (v : float) : state :=
  fun j => if var_eq_dec j k then v else us j.

(** The functions of math.h that are not IEEE basic operations.
    [sqrt] and [fabs] are the primitive [PrimFloat.sqrt] and
    [PrimFloat.abs]. *)
Record Libm : Set := {
  pow : float -> float -> float;
  sin : float -> float;
  cos : float -> float
}.

(** What [Init] uses of pluto.h: two physical constants, and the
    interpolation of the variables listed in [input_var] from the
    input data file ([InputDataSet] and [InputDataRead], run on the
    first call only, load that file and record the list). *)
Record Pluto : Set := {
  CONST_PI : float;
  CONST_kB : float;
  InputDataInterpolate : list var -> state -> float -> float -> float -> state
}.

(** [D_EXPAND(a, b, c)]: the first DIMENSIONS summands. *)
Definition D_EXPAND (cfg : Config) (a b c : float) : float :=
  match DIMENSIONS cfg with
  | DIM1 => a
  | DIM2 => a + b
  | DIM3 => a + b + c
  end.

(** The two zeros of binary64; both compare equal to 0. *)
Definition zero (negative : bool) : float := if negative then - 0 else 0.

(** Conversion of a C [int] constant expression to [double]. *)
Definition of_int (z : Z) : float :=
  if (z <? 0)%Z then - PrimFloat.of_uint63 (Uint63.of_Z (- z))
  else PrimFloat.of_uint63 (Uint63.of_Z z).

(** [a[i] = rand() % 10001; a[i] = (a[i] - 5000) / 50000 + 1;] in C
    [int] arithmetic: remainder and quotient truncate towards zero. *)
Definition fill_a (rnd : nat -> Z) : list Z :=
  map (fun i => let ai := Z.rem (rnd i) 10001 in
                (Z.quot (ai - 5000) 50000 + 1)%Z)
      (seq 0 10000).

End Double.

(** ** CTB_109/init.c *)

Module CTB_109.
Import Double.
Open Scope float_scope.

Section Init.
Variable m : Libm.
Variable P : Pluto.
Variable cfg : Config.
Variable g_inputParam : param -> float.

(** Locals of [Init] that depend on the runtime parameters only. *)
Definition M_ej  : float := g_inputParam M_EJ.
Definition R_ej  : float := g_inputParam R_EJ.
Definition n_h   : float := g_inputParam N_H.
Definition n_ISM : float := n_h * g_inputParam U_AM.
Definition eta   : float := g_inputParam ETA.
Definition n     : float := g_inputParam N_PI.
Definition rho_0 : float := n_ISM.
Definition T     : float := 1.0e4.
Definition time0 : float := 1.

(** [r_c = R_ej*pow(1.0-eta*M_ej*(3.0-n)/(4.0*CONST_PI*rho_0*pow(R_ej,3.0)),1.0/(3.0-n));] *)
Definition r_c : float :=
  R_ej * pow m (1.0 - eta * M_ej * (3.0 - n)
                      / (4.0 * CONST_PI P * rho_0 * pow m R_ej 3.0))
               (1.0 / (3.0 - n)).

(** [rho_c = (1-eta)*M_ej/(4/3*CONST_PI*pow(r_c,3));] where [4/3]
    is an [int] division. *)
Definition rho_c : float :=
  (of_int 1 - eta) * M_ej
  / (of_int (Z.quot 4 3) * CONST_PI P * pow m r_c (of_int 3)).

(** The body of [Init], as the array [us] it leaves.  [now] is the
    value of [time(NULL)] and [rand_seq seed i] the i-th value [rand()]
    returns after [srand(seed)]; the array [a] they fill is a local of
    the call.  The store [g_gamma = g_inputParam[GAMMA]] goes to a
    global outside [us]; the locals [E_ej] and [s] are read and never
    used. *)
Definition Init (now : Z) (rand_seq : Z -> nat -> Z)
           (us : state) (x1 x2 x3 : float) : state :=
  let r := D_EXPAND cfg (x1 * x1) (x2 * x2) (x3 * x3) in
  let r := sqrt r in
  let a := fill_a (rand_seq (now mod 2 ^ 32)%Z) in
  let us := upd us RHO n_ISM in
  let us := upd us VX1 0.0 in
  let us := upd us VX2 0.0 in
  let us := upd us VX3 0.0 in
  let us := upd us PRS (n_ISM * CONST_kB P * T / 1.67e-6) in
  let us :=
    if ADD_TURBULENCE cfg
    then InputDataInterpolate P [RHO] us x1 x2 x3
    else us in
  let us :=
    if (r <=? r_c) && negb (r =? 0) then
      let us := upd us RHO rho_c in
      let us := upd us VX1 (R_ej / time0 * (sqrt (x1 * x1 + x2 * x2) / r)
                            * (x1 / sqrt (x1 * x1 + x2 * x2))) in
      let us := upd us VX2 (R_ej / time0 * (sqrt (x1 * x1 + x2 * x2) / r)
                            * (x2 / sqrt (x1 * x1 + x2 * x2))) in
      let us := upd us VX3 (R_ej / time0 * (abs x3 / r)) in
      upd us PRS (rho_c * CONST_kB P * T / 1.67e-6)
    else us in
  let us :=
    if (r_c <? r) && (r <=? R_ej) then
      let us := upd us RHO (rho_c * pow m (r / r_c) (- n)) in
      let us := upd us VX1 (R_ej / time0 * (sqrt (x1 * x1 + x2 * x2) / r)
                            * (x1 / sqrt (x1 * x1 + x2 * x2))) in
      let us := upd us VX2 (R_ej / time0 * (sqrt (x1 * x1 + x2 * x2) / r)
                            * (x2 / sqrt (x1 * x1 + x2 * x2))) in
      let us := upd us VX3 (R_ej / time0 * (abs x3 / r)) in
      upd us PRS (rho_c * pow m (r / r_c) (- n) * CONST_kB P * T / 1.67e-6)
    else us in
  let theta := g_inputParam THETA * CONST_PI P / 180.0 in
  let phi := g_inputParam PHI * CONST_PI P / 180.0 in
  let B0 := g_inputParam BMAG in
  let us := upd us BX1 (B0 * sin m theta * cos m phi) in
  let us := upd us BX2 (B0 * sin m theta * sin m phi) in
  let us := upd us BX3 (B0 * cos m theta) in
  let us :=
    match GEOMETRY cfg with
    | CARTESIAN =>
        let us := upd us AX1 0.0 in
        let us := upd us AX2 (us BX3 * x1) in
        upd us AX3 (- us BX2 * x1 + us BX1 * x2)
    | CYLINDRICAL =>
        let us := upd us AX2 0.0 in
        let us := upd us AX1 (us AX2) in
        upd us AX3 (0.5 * us BX2 * x1)
    | _ => us
    end in
  if BACKGROUND_FIELD cfg then
    let us := upd us AX3 0.0 in
    let us := upd us AX2 (us AX3) in
    let us := upd us AX1 (us AX2) in
    let us := upd us BX3 (us AX1) in
    let us := upd us BX2 (us BX3) in
    upd us BX1 (us BX2)
  else us.

End Init.
End CTB_109.

(** ** The later revision of init.c (unnamed part_001) *)

Module Part_001.
Import Double.
Open Scope float_scope.

Section Init.
Variable m : Libm.
Variable P : Pluto.
Variable cfg : Config.
Variable g_inputParam : param -> float.

(** Locals of [Init] that depend on the runtime parameters only. *)
Definition E_ej  : float := g_inputParam E_EJ.
Definition M_ej  : float := g_inputParam M_EJ.
Definition R_ej  : float := g_inputParam R_EJ.
Definition n_h   : float := g_inputParam N_H.
Definition u     : float := g_inputParam U_AM.
Definition w_c   : float := g_inputParam W_C.
Definition n     : float := g_inputParam N_PI.
Definition n_ISM : float := n_h * u.
Definition T     : float := g_inputParam Temp.

Definition r_c : float := R_ej * w_c.

(** [fnc = 3.0/4.0/CONST_PI*(1.0-n/3.0)/(1.0-n/3.0*pow(w_c,3.0-n));] *)
Definition fnc : float :=
  3.0 / 4.0 / CONST_PI P * (1.0 - n / 3.0)
  / (1.0 - n / 3.0 * pow m w_c (3.0 - n)).

(** [alpha = (3.0-n)/(5.0-n)*(pow(w_c,n-5.0)-n/5.0)/(pow(w_c,n-3.0)-n/3.0)*pow(w_c,2);] *)
Definition alpha : float :=
  (3.0 - n) / (5.0 - n) * (pow m w_c (n - 5.0) - n / 5.0)
  / (pow m w_c (n - 3.0) - n / 3.0) * pow m w_c (of_int 2).

Definition v_ej   : float := pow m (E_ej / (M_ej * alpha * 0.5)) 0.5.
Definition t      : float := R_ej / v_ej.
Definition rho_ch : float := M_ej / pow m R_ej (of_int 3).
Definition R_ch   : float :=
  pow m M_ej (1.0 / 3.0) * pow m n_ISM (- 1.0 / 3.0).
Definition ph     : float := 1.1.
Definition l      : float := 0.343.

(** [eta = up/down] as computed inside both ejecta branches. *)
Definition eta_at (r : float) : float :=
  let up   := 1.0 + (n - 3.0) / 3.0 * pow m (ph / l * fnc) 0.5
                    * pow m (r / R_ch) 1.5 in
  let down := 1.0 + (n / 3.0) * pow m (ph / l * fnc) 0.5
                    * pow m (r / R_ch) 1.5 in
  up / down.

(** The body of [Init], as the array [us] it leaves.  The assignments
    to [us[BX1..BX3]] are commented out in this revision; [g_gamma] is
    a local here, and [s], [B0] and [g_gamma] are never used. *)
Definition Init (us : state) (x1 x2 x3 : float) : state :=
  let r := D_EXPAND cfg (x1 * x1) (x2 * x2) (x3 * x3) in
  let r := sqrt r in
  let us := upd us RHO n_ISM in
  let us := upd us VX1 0.0 in
  let us := upd us VX2 0.0 in
  let us := upd us VX3 0.0 in
  let us := upd us PRS (n_ISM * CONST_kB P * T / 1.67e-6) in
  let us :=
    if ADD_TURBULENCE cfg
    then InputDataInterpolate P [RHO; BX1; BX2; BX3] us x1 x2 x3
    else us in
  let us :=
    if (r <=? r_c) && negb (r =? 0) then
      let eta := eta_at r in
      let us := upd us RHO (rho_ch * fnc * pow m w_c (- n)) in
      let us := upd us VX1 ((x1 / t) * eta) in
      let us := upd us VX2 ((x2 / t) * eta) in
      let us := upd us VX3 ((x3 / t) * eta) in
      upd us PRS (rho_ch * fnc * pow m w_c (- n) * CONST_kB P * T / 1.67e-6)
    else us in
  let us :=
    if (r_c <? r) && (r <=? R_ej) then
      let eta := eta_at r in
      let us := upd us RHO (rho_ch * fnc * pow m (r / R_ej) (- n)) in
      let us := upd us VX1 ((x1 / t) * eta) in
      let us := upd us VX2 ((x2 / t) * eta) in
      let us := upd us VX3 ((x3 / t) * eta) in
      upd us PRS (rho_ch * fnc * pow m (r / R_ej) (- n)
                  * CONST_kB P * T / 1.67e-6)
    else us in
  let B0 := g_inputParam BMAG in
  let us :=
    match GEOMETRY cfg with
    | CARTESIAN =>
        let us := upd us AX1 0.0 in
        let us := upd us AX2 (us BX3 * x1) in
        upd us AX3 (- us BX2 * x1 + us BX1 * x2)
    | CYLINDRICAL =>
        let us := upd us AX2 0.0 in
        let us := upd us AX1 (us AX2) in
        upd us AX3 (0.5 * us BX2 * x1)
    | _ => us
    end in
  if BACKGROUND_FIELD cfg then
    let us := upd us AX3 0.0 in
    let us := upd us AX2 (us AX3) in
    let us := upd us AX1 (us AX2) in
    let us := upd us BX3 (us AX1) in
    let us := upd us BX2 (us BX3) in
    upd us BX1 (us BX2)
  else us.

End Init.
End Part_001.

(** ** A concrete environment for running the two routines *)

Module Sample.
Import Double.
Open Scope float_scope.

(** [pow] at the arguments where its value is fixed exactly:
    C99 Annex F.9.4.4 gives pow(x, +-0) = 1 and pow(+1, y) = 1 for
    every x and y, NaN included, and x^1 = x is exact.  Every other
    argument pair depends on the libm in use; the table answers nan
    there, so a value computed from it is visibly tainted. *)
Definition pow_F9 (x y : float) : float :=
  if y =? 0 then 1
  else if x =? 1 then 1
  else if y =? 1 then x
  else nan.

(** sin(+-0) = +-0 and cos(+-0) = 1 (Annex F.9.1); nan elsewhere. *)
Definition sin_F9 (x : float) : float := if x =? 0 then x else nan.
Definition cos_F9 (x : float) : float := if x =? 0 then 1 else nan.

Definition libm_F9 : Libm :=
  {| pow := pow_F9; sin := sin_F9; cos := cos_F9 |}.

(** Interpolation from a data file that is uniform, with value [d]
    for every listed variable. *)
Definition interpolate_uniform (d : float) (input_var : list var)
           (us : state) (x1 x2 x3 : float) : state :=
  fold_left (fun s v => upd s v d) input_var us.

(** pluto.h constants (cgs), with a uniform data file of value 2. *)
Definition pluto_h : Pluto :=
  {| CONST_PI := 3.14159265358979;
     CONST_kB := 1.3807e-16;
     InputDataInterpolate := interpolate_uniform 2 |}.

(** definitions.h with the turbulent medium switched on. *)
Definition definitions_h_turbulent : Config :=
  {| GEOMETRY := CARTESIAN; DIMENSIONS := DIM2;
     BACKGROUND_FIELD := false; ADD_TURBULENCE := true |}.

(** All runtime parameters equal to one, no magnetic field angles. *)
Definition params_unit (p : param) : float :=
  match p with
  | THETA | PHI => 0
  | ETA => 0.5
  | N_PI => 2
  | _ => 1
  end.

(** As [params_unit], with a negative core fraction and n = 3. *)
Definition params_negative_core (p : param) : float :=
  match p with
  | W_C => - 1
  | N_PI => 3
  | _ => params_unit p
  end.

(** An array [us] holding a marker value in every slot. *)
Definition us_marked : state := fun _ => 7.

(** A generator that always answers [c]. *)
Definition rand_const (c : Z) : Z -> nat -> Z := fun _ _ => c.

End Sample.

(** ** Constrained transport (DIVB_CONTROL = CONSTRAINED_TRANSPORT) *)

Module CT.
Open Scope Q_scope.

(** A quantity attached to the sites of the grid. *)
Definition field := Z -> Z -> Z -> Q.

(** Modelled from the spec: the staggered magnetic field, whose source
    is not in the repository (section 3, Face Magnetic Field).
    [Bx B i j k] sits on the face (i+1/2, j, k), [By B i j k] on
    (i, j+1/2, k) and [Bz B i j k] on (i, j, k+1/2). *)
Record face_field : Type := { Bx : field; By : field; Bz : field }.

(** Modelled from the spec: the edge-centred electromotive force
    (glossary, EMF).  [Ex E i j k] sits on the edge (i, j+1/2, k+1/2),
    [Ey E i j k] on (i+1/2, j, k+1/2), [Ez E i j k] on (i+1/2, j+1/2, k). *)
Record edge_emf : Type := { Ex : field; Ey : field; Ez : field }.

(** Modelled from the spec: the induction fluxes of step (1) of
    section 4.5, as the EMF component each face carries; [Ez_xface]
    is the z-component on the face (i+1/2, j, k), and so on. *)
Record face_emf : Type := {
  Ez_xface : field; Ez_yface : field;
  Ex_yface : field; Ex_zface : field;
  Ey_zface : field; Ey_xface : field
}.

(** Modelled from the spec: the tangential velocity that step (2) of
    section 4.5 consults at an edge, one component per direction. *)
Record edge_velocity : Type := { ux : field; uy : field; uz : field }.

(** Modelled from the spec: the two weighting rules of section 4.5,
    under the names [CT_EMF_AVERAGE] takes in definitions.h. *)
Inductive emf_average : Set := ARITHMETIC | UCT_CONTACT.

(** Modelled from the spec: the weighting rule of step (2) for the two
    faces [a] (upstream side) and [b] that face each other across an
    edge: equal weights, or the upwind face when the tangential
    velocity [s] across the edge does not vanish. *)
Definition pair_average (rule : emf_average) (s a b : Q) : Q :=
  match rule with
  | ARITHMETIC => (a + b) / 2
  | UCT_CONTACT =>
      if Qlt_le_dec 0 s then a
      else if Qlt_le_dec s 0 then b
      else (a + b) / 2
  end.

(** Modelled from the spec: step (2) of section 4.5, the EMF of an
    edge from its four surrounding faces. *)
Definition edge_average (rule : emf_average) (F : face_emf)
           (u : edge_velocity) : edge_emf :=
  {| Ex := fun i j k =>
       (pair_average rule (uz u i j k)
          (Ex_yface F i j k) (Ex_yface F i j (k + 1)%Z)
        + pair_average rule (uy u i j k)
            (Ex_zface F i j k) (Ex_zface F i (j + 1)%Z k)) / 2;
     Ey := fun i j k =>
       (pair_average rule (ux u i j k)
          (Ey_zface F i j k) (Ey_zface F (i + 1)%Z j k)
        + pair_average rule (uz u i j k)
            (Ey_xface F i j k) (Ey_xface F i j (k + 1)%Z)) / 2;
     Ez := fun i j k =>
       (pair_average rule (uy u i j k)
          (Ez_xface F i j k) (Ez_xface F i (j + 1)%Z k)
        + pair_average rule (ux u i j k)
            (Ez_yface F i j k) (Ez_yface F (i + 1)%Z j k)) / 2 |}.

Section Grid.
(** Time step and the three mesh spacings. *)
Variables dt dx dy dz : Q.

(** Modelled from the spec: the fixed stencil of the discrete
    divergence of cell (i, j, k) (section 3), computed in exact
    rational arithmetic; [CT_binary64.divB] is the same stencil in
    binary64. *)
Definition divB (B : face_field) (i j k : Z) : Q :=
  (Bx B i j k - Bx B (i - 1)%Z j k) / dx
  + (By B i j k - By B i (j - 1)%Z k) / dy
  + (Bz B i j k - Bz B i j (k - 1)%Z) / dz.

(** Modelled from the spec: step (3) of section 4.5, each face
    component advanced by the curl of the edge EMFs around it,
    computed in exact rational arithmetic; [CT_binary64.ct_update] is
    the same update in binary64. *)
Definition ct_update (E : edge_emf) (B : face_field) : face_field :=
  {| Bx := fun i j k =>
       Bx B i j k
       - dt * ((Ez E i j k - Ez E i (j - 1)%Z k) / dy
               - (Ey E i j k - Ey E i j (k - 1)%Z) / dz);
     By := fun i j k =>
       By B i j k
       - dt * ((Ex E i j k - Ex E i j (k - 1)%Z) / dz
               - (Ez E i j k - Ez E (i - 1)%Z j k) / dx);
     Bz := fun i j k =>
       Bz B i j k
       - dt * ((Ey E i j k - Ey E (i - 1)%Z j k) / dx
               - (Ex E i j k - Ex E i (j - 1)%Z k) / dy) |}.

(** Modelled from the spec: one CT sub-stage of section 4.5, steps (2)
    and (3) applied to the fluxes of step (1). *)
Definition ct_step (rule : emf_average) (F : face_emf)
           (u : edge_velocity) (B : face_field) : face_field :=
  ct_update (edge_average rule F u) B.

End Grid.




End CT.

(** ** Linear reconstruction (RECONSTRUCTION = LINEAR, LIMITER = VANLEER_LIM) *)

Module Reconstruction.
Open Scope Q_scope.

(** Cell averages of the primitive variables. *)
Definition prim := var -> Q.

(** Modelled from the spec: the van Leer limiter named by
    [LIMITER VANLEER_LIM] (section 4.2, its source is not in the
    repository): the harmonic mean of the two one-sided differences
    where they agree in sign, zero elsewhere. *)
Definition vanleer_lim (dm dp : Q) : Q :=
  if Qlt_le_dec 0 (dm * dp) then 2 * dm * dp / (dm + dp) else 0.

(** Modelled from the spec: the variables section 4.2 forbids to
    extrapolate below zero, density and pressure. *)
Definition positive_var (v : var) : bool :=
  match v with RHO | PRS => true | _ => false end.

(** Modelled from the spec: "if it would, clamp to the donor-cell
    value" (section 4.2). *)
Definition clamp (v : var) (donor candidate : Q) : Q :=
  if positive_var v
  then (if Qlt_le_dec candidate 0 then donor else candidate)
  else candidate.

(** Modelled from the spec: the limited linear profile of one cell
    from the stencil (qm, q0, qp), evaluated at its right face
    ([sgn] = 1) or left face ([sgn] = -1), computed in exact rational
    arithmetic; [Reconstruction_binary64.limited] is the same profile
    in binary64. *)
Definition limited (qm q0 qp : prim) (sgn : Q) (v : var) : Q :=
  q0 v + sgn * vanleer_lim (q0 v - qm v) (qp v - q0 v) / 2.

(** Modelled from the spec: the value handed to the Riemann solver,
    the limited profile after the clamp of section 4.2. *)
Definition face_value (qm q0 qp : prim) (sgn : Q) (v : var) : Q :=
  clamp v (q0 v) (limited qm q0 qp sgn v).

(** Modelled from the spec: the left and right states at the face
    between cells i and i+1 of a row [q] of cell averages. *)
Definition left_state (q : Z -> prim) (i : Z) : prim :=
  face_value (q (i - 1)%Z) (q i) (q (i + 1)%Z) 1.





End Reconstruction.

(** ** The same two schemes in binary64

    The solver computes in [double].  The stencils above are repeated
    here over primitive floats, operation for operation, to tell what
    holds of the exact model only. *)

Module CT_binary64.
Open Scope float_scope.

Definition field := Z -> Z -> Z -> float.

(** Modelled from the spec: the staggered field, the edge EMF, the
    face EMF and the edge velocity of section 4.5 (their source is not
    in the repository), as [CT.face_field], [CT.edge_emf],
    [CT.face_emf] and [CT.edge_velocity] with binary64 values. *)
Record face_field : Type := { Bx : field; By : field; Bz : field }.
Record edge_emf : Type := { Ex : field; Ey : field; Ez : field }.
Record face_emf : Type := {
  Ez_xface : field; Ez_yface : field;
  Ex_yface : field; Ex_zface : field;
  Ey_zface : field; Ey_xface : field
}.
Record edge_velocity : Type := { ux : field; uy : field; uz : field }.

(** Modelled from the spec: the weighting rule of step (2) of section
    4.5, as [CT.pair_average] in binary64. *)
Definition pair_average (rule : CT.emf_average) (s a b : float) : float :=
  match rule with
  | CT.ARITHMETIC => (a + b) / 2
  | CT.UCT_CONTACT =>
      if 0 <? s then a
      else if s <? 0 then b
      else (a + b) / 2
  end.

(** Modelled from the spec: step (2) of section 4.5, as
    [CT.edge_average] in binary64. *)
Definition edge_average (rule : CT.emf_average) (F : face_emf)
           (u : edge_velocity) : edge_emf :=
  {| Ex := fun i j k =>
       (pair_average rule (uz u i j k)
          (Ex_yface F i j k) (Ex_yface F i j (k + 1)%Z)
        + pair_average rule (uy u i j k)
            (Ex_zface F i j k) (Ex_zface F i (j + 1)%Z k)) / 2;
     Ey := fun i j k =>
       (pair_average rule (ux u i j k)
          (Ey_zface F i j k) (Ey_zface F (i + 1)%Z j k)
        + pair_average rule (uz u i j k)
            (Ey_xface F i j k) (Ey_xface F i j (k + 1)%Z)) / 2;
     Ez := fun i j k =>
       (pair_average rule (uy u i j k)
          (Ez_xface F i j k) (Ez_xface F i (j + 1)%Z k)
        + pair_average rule (ux u i j k)
            (Ez_yface F i j k) (Ez_yface F (i + 1)%Z j k)) / 2 |}.

Section Grid.
Variables dt dx dy dz : float.

(** Modelled from the spec: the discrete divergence of section 3, as
    [CT.divB] in binary64. *)
Definition divB (B : face_field) (i j k : Z) : float :=
  (Bx B i j k - Bx B (i - 1)%Z j k) / dx
  + (By B i j k - By B i (j - 1)%Z k) / dy
  + (Bz B i j k - Bz B i j (k - 1)%Z) / dz.

(** Modelled from the spec: step (3) of section 4.5, as
    [CT.ct_update] in binary64. *)
Definition ct_update (E : edge_emf) (B : face_field) : face_field :=
  {| Bx := fun i j k =>
       Bx B i j k
       - dt * ((Ez E i j k - Ez E i (j - 1)%Z k) / dy
               - (Ey E i j k - Ey E i j (k - 1)%Z) / dz);
     By := fun i j k =>
       By B i j k
       - dt * ((Ex E i j k - Ex E i j (k - 1)%Z) / dz
               - (Ez E i j k - Ez E (i - 1)%Z j k) / dx);
     Bz := fun i j k =>
       Bz B i j k
       - dt * ((Ey E i j k - Ey E (i - 1)%Z j k) / dx
               - (Ex E i j k - Ex E i (j - 1)%Z k) / dy) |}.

(** Modelled from the spec: one CT sub-stage, as [CT.ct_step] in
    binary64. *)
Definition ct_step (rule : CT.emf_average) (F : face_emf)
           (u : edge_velocity) (B : face_field) : face_field :=
  ct_update (edge_average rule F u) B.

End Grid.





End CT_binary64.

Module Reconstruction_binary64.
Open Scope float_scope.

Definition prim := var -> float.

(** Modelled from the spec: the van Leer limiter, the clamp, the
    limited profile and the face value of section 4.2 (their source is
    not in the repository), as [Reconstruction.vanleer_lim],
    [Reconstruction.clamp], [Reconstruction.limited] and
    [Reconstruction.face_value] in binary64. *)
Definition vanleer_lim (dm dp : float) : float :=
  if 0 <? dm * dp then 2 * dm * dp / (dm + dp) else 0.

Definition clamp (v : var) (donor candidate : float) : float :=
  if Reconstruction.positive_var v
  then (if candidate <? 0 then donor else candidate)
  else candidate.

Definition limited (qm q0 qp : prim) (sgn : float) (v : var) : float :=
  q0 v + sgn * vanleer_lim (q0 v - qm v) (qp v - q0 v) / 2.

Definition face_value (qm q0 qp : prim) (sgn : float) (v : var) : float :=
  clamp v (q0 v) (limited qm q0 qp sgn v).

(** Modelled from the spec: the left state at the face between cells
    i and i+1, as [Reconstruction.left_state] in binary64. *)
Definition left_state (q : Z -> prim) (i : Z) : prim :=
  face_value (q (i - 1)%Z) (q i) (q (i + 1)%Z) 1.


End Reconstruction_binary64.

(** ** The two ejecta tests of [Init] *)

Module Ejecta.
Import Double.
Open Scope float_scope.

(** [r = D_EXPAND(x1*x1, + x2*x2, + x3*x3); r = sqrt(r);] *)
Definition radius (cfg : Config) (x1 x2 x3 : float) : float :=
  sqrt (D_EXPAND cfg (x1 * x1) (x2 * x2) (x3 * x3)).

(** [r <= r_c && r != 0], the test of the first [if] of both versions. *)
Definition in_core (r r_c : float) : bool := (r <=? r_c) && negb (r =? 0).

(** [r > r_c && r <= R_ej], the test of the second [if]. *)
Definition in_shell (r r_c R_ej : float) : bool := (r_c <? r) && (r <=? R_ej).

(** The five hydrodynamic slots of [us]. *)
Definition hydro : list var := [RHO; VX1; VX2; VX3; PRS].

(** The runtime parameters each version of [Init] computes with. *)
Definition used_CTB_109 : list param :=
  [M_EJ; R_EJ; N_H; U_AM; ETA; N_PI; THETA; PHI; BMAG].

Definition used_Part_001 : list param :=
  [E_EJ; M_EJ; R_EJ; N_H; U_AM; W_C; N_PI; Temp].

(** [Sample.params_unit] with the labels no version computes with, or
    only the other one does, set to other values. *)
Definition params_unit_other_energy (p : param) : float :=
  match p with
  | E_EJ => 1.0e51
  | GAMMA | S_PI | W_C | Temp => 3
  | _ => Sample.params_unit p
  end.

Definition params_unit_other_field (p : param) : float :=
  match p with
  | BMAG => 9
  | THETA | PHI => 30
  | ETA | S_PI | GAMMA => 3
  | _ => Sample.params_unit p
  end.

(** definitions.h with DIMENSIONS raised to 3. *)
Definition definitions_h_3d : Config :=
  {| GEOMETRY := CARTESIAN; DIMENSIONS := DIM3;
     BACKGROUND_FIELD := false; ADD_TURBULENCE := false |}.

(** [Sample.params_unit] with the core ending at half the ejecta
    radius. *)
Definition params_half_core (p : param) : float :=
  match p with
  | W_C => 0.5
  | _ => Sample.params_unit p
  end.

(** Runtime parameters whose core radius is a NaN: the later revision
    multiplies an infinite R_EJ by a zero W_C. *)
Definition params_nan_core (p : param) : float :=
  match p with
  | R_EJ => infinity
  | W_C => 0
  | THETA | PHI => 0
  | _ => 1
  end.

End Ejecta.

(** ** The stages of the two [Init] bodies *)

Module Stages.
Import Double.
Open Scope float_scope.

Section Stages.
Variable m : Libm.
Variable P : Pluto.
Variable cfg : Config.
Variable g_inputParam : param -> float.

(** Lines 130-176 of CTB_109/init.c: the radius, the ambient medium,
    the optional interpolation and the two ejecta branches. *)
Definition hydro_CTB_109 (us : state) (x1 x2 x3 : float) : state :=
  let r := D_EXPAND cfg (x1 * x1) (x2 * x2) (x3 * x3) in
  let r := sqrt r in
  let R_ej := CTB_109.R_ej g_inputParam in
  let r_c := CTB_109.r_c m P g_inputParam in
  let rho_c := CTB_109.rho_c m P g_inputParam in
  let n_ISM := CTB_109.n_ISM g_inputParam in
  let T := CTB_109.T in
  let time0 := CTB_109.time0 in
  let n := CTB_109.n g_inputParam in
  let us := upd us RHO n_ISM in
  let us := upd us VX1 0.0 in
  let us := upd us VX2 0.0 in
  let us := upd us VX3 0.0 in
  let us := upd us PRS (n_ISM * CONST_kB P * T / 1.67e-6) in
  let us :=
    if ADD_TURBULENCE cfg
    then InputDataInterpolate P [RHO] us x1 x2 x3
    else us in
  let us :=
    if (r <=? r_c) && negb (r =? 0) then
      let us := upd us RHO rho_c in
      let us := upd us VX1 (R_ej / time0 * (sqrt (x1 * x1 + x2 * x2) / r)
                            * (x1 / sqrt (x1 * x1 + x2 * x2))) in
      let us := upd us VX2 (R_ej / time0 * (sqrt (x1 * x1 + x2 * x2) / r)
                            * (x2 / sqrt (x1 * x1 + x2 * x2))) in
      let us := upd us VX3 (R_ej / time0 * (abs x3 / r)) in
      upd us PRS (rho_c * CONST_kB P * T / 1.67e-6)
    else us in
  if (r_c <? r) && (r <=? R_ej) then
    let us := upd us RHO (rho_c * pow m (r / r_c) (- n)) in
    let us := upd us VX1 (R_ej / time0 * (sqrt (x1 * x1 + x2 * x2) / r)
                          * (x1 / sqrt (x1 * x1 + x2 * x2))) in
    let us := upd us VX2 (R_ej / time0 * (sqrt (x1 * x1 + x2 * x2) / r)
                          * (x2 / sqrt (x1 * x1 + x2 * x2))) in
    let us := upd us VX3 (R_ej / time0 * (abs x3 / r)) in
    upd us PRS (rho_c * pow m (r / r_c) (- n) * CONST_kB P * T / 1.67e-6)
  else us.

(** Lines 180-186 of CTB_109/init.c: the magnetic field. *)
Definition field_CTB_109 (us : state) : state :=
  let theta := g_inputParam THETA * CONST_PI P / 180.0 in
  let phi := g_inputParam PHI * CONST_PI P / 180.0 in
  let B0 := g_inputParam BMAG in
  let us := upd us BX1 (B0 * sin m theta * cos m phi) in
  let us := upd us BX2 (B0 * sin m theta * sin m phi) in
  upd us BX3 (B0 * cos m theta).

(** Lines 149-206 of the later revision: the radius, the ambient
    medium, the optional interpolation and the two ejecta branches. *)
Definition hydro_Part_001 (us : state) (x1 x2 x3 : float) : state :=
  let r := D_EXPAND cfg (x1 * x1) (x2 * x2) (x3 * x3) in
  let r := sqrt r in
  let R_ej := Part_001.R_ej g_inputParam in
  let r_c := Part_001.r_c g_inputParam in
  let w_c := Part_001.w_c g_inputParam in
  let n := Part_001.n g_inputParam in
  let n_ISM := Part_001.n_ISM g_inputParam in
  let T := Part_001.T g_inputParam in
  let t := Part_001.t m g_inputParam in
  let rho_ch := Part_001.rho_ch m g_inputParam in
  let fnc := Part_001.fnc m P g_inputParam in
  let us := upd us RHO n_ISM in
  let us := upd us VX1 0.0 in
  let us := upd us VX2 0.0 in
  let us := upd us VX3 0.0 in
  let us := upd us PRS (n_ISM * CONST_kB P * T / 1.67e-6) in
  let us :=
    if ADD_TURBULENCE cfg
    then InputDataInterpolate P [RHO; BX1; BX2; BX3] us x1 x2 x3
    else us in
  let us :=
    if (r <=? r_c) && negb (r =? 0) then
      let eta := Part_001.eta_at m P g_inputParam r in
      let us := upd us RHO (rho_ch * fnc * pow m w_c (- n)) in
      let us := upd us VX1 ((x1 / t) * eta) in
      let us := upd us VX2 ((x2 / t) * eta) in
      let us := upd us VX3 ((x3 / t) * eta) in
      upd us PRS (rho_ch * fnc * pow m w_c (- n) * CONST_kB P * T / 1.67e-6)
    else us in
  if (r_c <? r) && (r <=? R_ej) then
    let eta := Part_001.eta_at m P g_inputParam r in
    let us := upd us RHO (rho_ch * fnc * pow m (r / R_ej) (- n)) in
    let us := upd us VX1 ((x1 / t) * eta) in
    let us := upd us VX2 ((x2 / t) * eta) in
    let us := upd us VX3 ((x3 / t) * eta) in
    upd us PRS (rho_ch * fnc * pow m (r / R_ej) (- n)
                * CONST_kB P * T / 1.67e-6)
  else us.

(** The closing block common to both versions (lines 189-201 of
    CTB_109/init.c, 217-229 of the later revision): the vector
    potential by geometry, then the BACKGROUND_FIELD reset. *)
Definition potential (us : state) (x1 x2 : float) : state :=
  let us :=
    match GEOMETRY cfg with
    | CARTESIAN =>
        let us := upd us AX1 0.0 in
        let us := upd us AX2 (us BX3 * x1) in
        upd us AX3 (- us BX2 * x1 + us BX1 * x2)
    | CYLINDRICAL =>
        let us := upd us AX2 0.0 in
        let us := upd us AX1 (us AX2) in
        upd us AX3 (0.5 * us BX2 * x1)
    | _ => us
    end in
  if BACKGROUND_FIELD cfg then
    let us := upd us AX3 0.0 in
    let us := upd us AX2 (us AX3) in
    let us := upd us AX1 (us AX2) in
    let us := upd us BX3 (us AX1) in
    let us := upd us BX2 (us BX3) in
    upd us BX1 (us BX2)
  else us.

End Stages.
End Stages.

(** ** [BackgroundField] (compiled when BACKGROUND_FIELD == YES) *)

Module Background.
Import Double.
Open Scope float_scope.

(** The indices [IDIR], [JDIR], [KDIR] of the array [double *B0]. *)
Inductive dir : Set := IDIR | JDIR | KDIR.

Definition dir_eq_dec (a b : dir) : {a = b} + {a <> b}.
Proof. decide equality. Defined.

(** [COMPONENTS] of definitions.h, which [EXPAND] consults. *)
Inductive components : Set := COMP1 | COMP2 | COMP3.

(** [#define COMPONENTS 2] (part_000). *)
Definition definitions_h_components : components := COMP2.

Definition field := dir -> float.

(** [B0[d] = v;] *)
Definition updB (B0 : field) (d : dir) (v : float) : field :=
  fun j => if dir_eq_dec j d then v else B0 j.

(** [EXPAND(a, b, c)]: the first COMPONENTS statements, in order. *)
Definition EXPAND (comps : components) (a b c : field -> field)
           (B0 : field) : field :=
  match comps with
  | COMP1 => a B0
  | COMP2 => b (a B0)
  | COMP3 => c (b (a B0))
  end.

(** The function-scope [static] variables of [BackgroundField] in
    CTB_109/init.c. *)
Record statics : Set := {
  first_call : bool;
  sth : float; cth : float; sphi : float; cphi : float
}.

(** Their values at program start: [first_call = 1], the doubles zero
    as every object of static storage. *)
Definition statics0 : statics :=
  {| first_call := true; sth := 0; cth := 0; sphi := 0; cphi := 0 |}.

(** A sample incoming array [B0]. *)
Definition B0_marked : field := fun _ => 7.

(** Runtime parameters with a field of strength 2 along x3, and the
    same with the strength raised to 5 and the angles moved. *)
Definition params_first (p : param) : float :=
  match p with BMAG => 2 | THETA | PHI => 0 | _ => 1 end.

Definition params_later (p : param) : float :=
  match p with BMAG => 5 | THETA => 90 | PHI => 45 | _ => 1 end.

End Background.

Module Background_CTB_109.
Import Double Background.
Open Scope float_scope.

Section BackgroundField.
Variable comps : components.
Variable m : Libm.
Variable P : Pluto.

(** The body of [BackgroundField] of CTB_109/init.c: the statics it
    leaves and the array [B0] it leaves.  [g_inputParam] is the global
    parameter array as it stands at the time of the call. *)
Definition BackgroundField (g_inputParam : param -> float) (st : statics)
           (x1 x2 x3 : float) (B0 : field) : statics * field :=
  let st :=
    if first_call st then
      let theta := g_inputParam THETA * CONST_PI P / 180.0 in
      let phi := g_inputParam PHI * CONST_PI P / 180.0 in
      {| first_call := false;
         sth := sin m theta; cth := cos m theta;
         sphi := sin m phi; cphi := cos m phi |}
    else st in
  (st,
   EXPAND comps
     (fun B0 => updB B0 IDIR (g_inputParam BMAG * sth st * cphi st))
     (fun B0 => updB B0 JDIR (g_inputParam BMAG * sth st * sphi st))
     (fun B0 => updB B0 KDIR (g_inputParam BMAG * cth st))
     B0).

(** A run of calls, each with the parameter array, the position and
    the array [B0] of its time; the statics are threaded through. *)
Fixpoint calls (st : statics)
         (cs : list ((param -> float) * (float * float * float) * field))
  : statics :=
  match cs with
  | [] => st
  | (g, (x1, x2, x3), B0) :: cs' =>
      calls (fst (BackgroundField g st x1 x2 x3 B0)) cs'
  end.

End BackgroundField.
End Background_CTB_109.

Module Background_Part_001.
Import Double Background.

(** The body of [BackgroundField] of the later revision: everything
    between the braces is inside one comment, so [B0] is left as it
    came. *)
Definition BackgroundField (x1 x2 x3 : float) (B0 : field) : field := B0.

End Background_Part_001.

(** * Properties of the two [Init] routines *)

Section InitProperties.
Import Double.
Open Scope float_scope.

Lemma upd_same (us : state) (k : var) (v : float) : upd us k v k = v.
Proof. unfold upd. destruct (var_eq_dec k k); congruence. Qed.

Lemma upd_other (us : state) (k j : var) (v : float) :
  j <> k -> upd us k v j = us j.
Proof. intros Hjk. unfold upd. destruct (var_eq_dec j k); congruence. Qed.

(** The square root of the sum of squares vanishes at the origin,
    whatever the sign of the zeros and the number of dimensions. *)
Lemma radius_origin (cfg : Config) (s1 s2 s3 : bool) :
  sqrt (D_EXPAND cfg (zero s1 * zero s1) (zero s2 * zero s2)
                     (zero s3 * zero s3)) = 0.
Proof.
  unfold D_EXPAND.
  destruct (DIMENSIONS cfg), s1, s2, s3; vm_compute; reflexivity.
Qed.

(** C8. With BACKGROUND_FIELD and ADD_TURBULENCE both off, [Init] of
    the later revision leaves us[BX1], us[BX2], us[BX3] at their
    pre-call values for every position and parameter set, and the
    vector potential it writes is computed from those pre-call
    values: in Cartesian geometry (the one of definitions.h)
    AX2 = us[BX3]*x1 and AX3 = -us[BX2]*x1 + us[BX1]*x2; in
    cylindrical geometry AX3 = 0.5*us[BX2]*x1 next to AX2 = 0. *)
Theorem Init_part001_magnetic_field_unassigned
    (m : Libm) (P : Pluto) (cfg : Config) (g_inputParam : param -> float)
    (us : state) (x1 x2 x3 : float) :
  BACKGROUND_FIELD cfg = false ->
  ADD_TURBULENCE cfg = false ->
  let us' := Part_001.Init m P cfg g_inputParam us x1 x2 x3 in
  (us' BX1 = us BX1 /\ us' BX2 = us BX2 /\ us' BX3 = us BX3) /\
  (GEOMETRY cfg = CARTESIAN ->
     us' AX2 = us BX3 * x1 /\ us' AX3 = - us BX2 * x1 + us BX1 * x2) /\
  (GEOMETRY cfg = CYLINDRICAL ->
     us' AX2 = 0 /\ us' AX3 = 0.5 * us BX2 * x1).
Proof.
  intros Hbg Hturb us'. subst us'. unfold Part_001.Init.
  rewrite Hbg, Hturb. cbv zeta.
  set (core := (_ <=? _) && negb _).
  set (shell := (_ <? _) && (_ <=? _)).
  destruct core, shell, (GEOMETRY cfg); cbn;
    (split; [repeat split | split; intros Hg; try discriminate Hg; split; reflexivity]).
Qed.

Lemma Init_part001_magnetic_field_unassigned_witness :
  let us' := Part_001.Init Sample.libm_F9 Sample.pluto_h definitions_h
               Sample.params_unit Sample.us_marked 0.5 0.25 0 in
  us' BX1 = 7 /\ us' BX2 = 7 /\ us' BX3 = 7 /\
  us' AX2 = 3.5 /\ us' AX3 = -1.75.
Proof.
  destruct (Init_part001_magnetic_field_unassigned
              Sample.libm_F9 Sample.pluto_h definitions_h
              Sample.params_unit Sample.us_marked 0.5 0.25 0
              eq_refl eq_refl) as [[H1 [H2 H3]] [Hc _]].
  destruct (Hc eq_refl) as [H4 H5].
  cbv zeta. rewrite H1, H2, H3, H4, H5.
  repeat split; reflexivity.
Defined.

(** C9. The state written by [Init] of CTB_109/init.c does not depend
    on the pseudo-random generator: whatever the clock value used as
    seed and whatever sequence [rand()] yields, the same position,
    parameters and incoming array give the same outgoing array. *)
Theorem Init_CTB109_independent_of_rand
    (m : Libm) (P : Pluto) (cfg : Config) (g_inputParam : param -> float)
    (now1 now2 : Z) (rand_seq1 rand_seq2 : Z -> nat -> Z)
    (us : state) (x1 x2 x3 : float) :
  CTB_109.Init m P cfg g_inputParam now1 rand_seq1 us x1 x2 x3 =
  CTB_109.Init m P cfg g_inputParam now2 rand_seq2 us x1 x2 x3.
Proof. unfold CTB_109.Init. cbv zeta. reflexivity. Qed.

(** C10, as amended. At the origin (zeros of either sign, so r = 0)
    and with ADD_TURBULENCE off, both versions of [Init] leave the
    ambient state in us (density n_ISM, zero velocity, ambient
    pressure) unless r_c < 0 <= R_ej: the core branch is excluded by
    [r != 0], the shell branch [r > r_c && r <= R_ej] by the stated
    condition on r_c and R_ej. *)
Theorem Init_origin_ambient
    (m : Libm) (P : Pluto) (cfg : Config) (g_inputParam : param -> float)
    (now : Z) (rand_seq : Z -> nat -> Z) (us : state) (s1 s2 s3 : bool) :
  ADD_TURBULENCE cfg = false ->
  ((CTB_109.r_c m P g_inputParam <? 0) && (0 <=? CTB_109.R_ej g_inputParam)
     = false ->
   let us' := CTB_109.Init m P cfg g_inputParam now rand_seq us
                (zero s1) (zero s2) (zero s3) in
   us' RHO = CTB_109.n_ISM g_inputParam /\
   us' VX1 = 0 /\ us' VX2 = 0 /\ us' VX3 = 0 /\
   us' PRS = CTB_109.n_ISM g_inputParam * CONST_kB P * CTB_109.T / 1.67e-6)
  /\
  ((Part_001.r_c g_inputParam <? 0) && (0 <=? Part_001.R_ej g_inputParam)
     = false ->
   let us' := Part_001.Init m P cfg g_inputParam us
                (zero s1) (zero s2) (zero s3) in
   us' RHO = Part_001.n_ISM g_inputParam /\
   us' VX1 = 0 /\ us' VX2 = 0 /\ us' VX3 = 0 /\
   us' PRS = Part_001.n_ISM g_inputParam * CONST_kB P
             * Part_001.T g_inputParam / 1.67e-6).
Proof.
  intros Hturb. split; intros Hshell us'; subst us'.
  - unfold CTB_109.Init. cbv zeta.
    rewrite radius_origin, Hturb, Hshell.
    change (negb (0 =? 0)) with false. rewrite andb_false_r.
    destruct (BACKGROUND_FIELD cfg), (GEOMETRY cfg); cbn;
      repeat split; reflexivity.
  - unfold Part_001.Init. cbv zeta.
    rewrite radius_origin, Hturb, Hshell.
    change (negb (0 =? 0)) with false. rewrite andb_false_r.
    destruct (BACKGROUND_FIELD cfg), (GEOMETRY cfg); cbn;
      repeat split; reflexivity.
Qed.

Lemma Init_origin_ambient_witness :
  (let us' := CTB_109.Init Sample.libm_F9 Sample.pluto_h definitions_h
                Sample.params_unit 5 (Sample.rand_const 3)
                Sample.us_marked 0 0 0 in
   us' RHO = 1 /\ us' VX1 = 0 /\ us' VX2 = 0 /\ us' VX3 = 0 /\
   us' PRS = 8.2676646706586823e-07) /\
  (let us' := Part_001.Init Sample.libm_F9 Sample.pluto_h definitions_h
                Sample.params_unit Sample.us_marked 0 0 0 in
   us' RHO = 1 /\ us' VX1 = 0 /\ us' VX2 = 0 /\ us' VX3 = 0 /\
   us' PRS = 8.2676646706586812e-11).
Proof.
  destruct (Init_origin_ambient Sample.libm_F9 Sample.pluto_h definitions_h
              Sample.params_unit 5 (Sample.rand_const 3) Sample.us_marked
              false false false eq_refl) as [H109 H001].
  split.
  - exact (H109 eq_refl).
  - exact (H001 eq_refl).
Defined.

(** C10, as stated, fails. (1) With a negative core fraction w_c = -1
    and R_ej = 1 the core radius is r_c = -1 < 0 <= R_ej, the shell
    branch runs at the origin and the later revision stores
    rho_ch*fnc*pow(0/R_ej,-n) in us[RHO] (here a NaN, fnc being 0/0
    for n = 3), not n_ISM = 1.  (2) With ADD_TURBULENCE == YES the
    density left by init.c at the origin is the interpolated one
    (here 2), not n_ISM = 1. *)
Lemma Init_origin_not_always_ambient :
  ((Part_001.r_c Sample.params_negative_core <? 0)
     && (0 <=? Part_001.R_ej Sample.params_negative_core) = true /\
   Part_001.Init Sample.libm_F9 Sample.pluto_h definitions_h
     Sample.params_negative_core Sample.us_marked 0 0 0 RHO
   <> Part_001.n_ISM Sample.params_negative_core) /\
  CTB_109.Init Sample.libm_F9 Sample.pluto_h Sample.definitions_h_turbulent
    Sample.params_unit 5 (Sample.rand_const 3) Sample.us_marked 0 0 0 RHO
  <> CTB_109.n_ISM Sample.params_unit.
Proof.
  split; [split |].
  - vm_compute. reflexivity.
  - intros H. apply (f_equal is_nan) in H. vm_compute in H. discriminate H.
  - intros H. apply (f_equal (fun x => x =? 1)) in H.
    vm_compute in H. discriminate H.
Qed.

(** X1. Whatever [rand()] returns, each of the 10000 entries of the
local array [a] of init.c is the constant 1: [(a[i]-5000)/50000] is
an [int] division of a number between -15000 and 5000, hence 0. *)
Theorem fill_a_constant (rnd : nat -> Z) :
  length (fill_a rnd) = 10000%nat /\
  forall x, In x (fill_a rnd) -> x = 1%Z.
Proof.
  unfold fill_a. split.
  - rewrite length_map, length_seq. reflexivity.
  - intros x Hx. apply in_map_iff in Hx. destruct Hx as [i [Hi _]].
    subst x. cbv zeta.
    assert (Hrem : (-10001 < Z.rem (rnd i) 10001 < 10001)%Z).
    { pose proof (Z.rem_bound_abs (rnd i) 10001 ltac:(lia)) as Habs. lia. }
    assert (Hq : Z.quot (Z.rem (rnd i) 10001 - 5000) 50000 = 0%Z).
    { apply Z.quot_small_iff; lia. }
    lia.
Qed.

End InitProperties.

(** * Properties of the constrained-transport update *)

Section CTProperties.
Import CT.
Open Scope Q_scope.






End CTProperties.

(** * Properties of the limited linear reconstruction *)

Section RecProperties.
Import Reconstruction.
Open Scope Q_scope.






End RecProperties.


(** * IEEE-754 facts about the primitive operations *)

Section FloatFacts.
Open Scope float_scope.

(** Swapping the arguments of a comparison reverses its outcome. *)
Lemma SFcompare_antisym (a b : spec_float) :
  SFcompare b a = option_map CompOpp (SFcompare a b).
Proof.
  destruct a as [sa | sa | | sa ma ea], b as [sb | sb | | sb mb eb];
    try destruct sa; try destruct sb; cbn; try reflexivity.
  all: pose proof (Pos.compare_cont_antisym ma mb Eq) as Hm; cbn in Hm;
    rewrite (Z.compare_antisym ea eb), <- Hm;
    destruct (ea ?= eb)%Z; cbn; try reflexivity;
    destruct (Pos.compare_cont Eq ma mb); reflexivity.
Qed.

(** [x <= y] excludes [y < x], and [x < y] excludes [y <= x]. *)
Lemma leb_true_ltb_false (x y : float) :
  (x <=? y) = true -> (y <? x) = false.
Proof.
  rewrite FloatAxioms.leb_spec, FloatAxioms.ltb_spec. unfold SFleb, SFltb.
  rewrite (SFcompare_antisym (Prim2SF x) (Prim2SF y)).
  destruct (SFcompare (Prim2SF x) (Prim2SF y)) as [[| |] |]; cbn; congruence.
Qed.

Lemma ltb_true_leb_false (x y : float) :
  (x <? y) = true -> (y <=? x) = false.
Proof.
  rewrite FloatAxioms.leb_spec, FloatAxioms.ltb_spec. unfold SFleb, SFltb.
  rewrite (SFcompare_antisym (Prim2SF x) (Prim2SF y)).
  destruct (SFcompare (Prim2SF x) (Prim2SF y)) as [[| |] |]; cbn; congruence.
Qed.

(** Every number that is not a NaN compares equal to itself. *)
Lemma SFcompare_refl (a : spec_float) :
  a <> S754_nan -> SFcompare a a = Some Eq.
Proof.
  destruct a as [s | s | | s m e]; intros H; try congruence;
    destruct s; cbn; try reflexivity;
    rewrite Z.compare_refl, Pos.compare_cont_refl; reflexivity.
Qed.

Lemma is_nan_spec (x : float) : is_nan x = true -> Prim2SF x = S754_nan.
Proof.
  unfold is_nan. rewrite FloatAxioms.eqb_spec. unfold SFeqb. intros H.
  destruct (Prim2SF x) eqn:E; try reflexivity;
    rewrite SFcompare_refl in H by congruence; discriminate H.
Qed.

(** No ordered comparison with a NaN holds. *)
Lemma nan_not_comparable (c x : float) :
  is_nan c = true ->
  (x <=? c) = false /\ (c <=? x) = false /\ (x <? c) = false /\ (c <? x) = false.
Proof.
  intros H. apply is_nan_spec in H.
  rewrite !FloatAxioms.leb_spec, !FloatAxioms.ltb_spec, H. unfold SFleb, SFltb.
  destruct (Prim2SF x); cbn; repeat split; reflexivity.
Qed.

Lemma Prim2SF_nan : Prim2SF nan = S754_nan.
Proof. vm_compute. reflexivity. Qed.

(** A NaN factor makes the product a NaN. *)
Lemma mul_nan_r (x : float) : x * nan = nan.
Proof.
  apply Prim2SF_inj. rewrite FloatAxioms.mul_spec, Prim2SF_nan.
  destruct (Prim2SF x); reflexivity.
Qed.

(** Squares and absolute values do not see the sign. *)
Lemma mul_opp_opp (x : float) : (- x) * (- x) = x * x.
Proof.
  apply Prim2SF_inj. rewrite !FloatAxioms.mul_spec, FloatAxioms.opp_spec.
  destruct (Prim2SF x) as [s | s | | s m e]; cbn; try destruct s; reflexivity.
Qed.

Lemma abs_opp (x : float) : abs (- x) = abs x.
Proof.
  apply Prim2SF_inj. rewrite !FloatAxioms.abs_spec, FloatAxioms.opp_spec.
  destruct (Prim2SF x); reflexivity.
Qed.

(** Rounding to nearest even is symmetric: the sign only labels the
    result. *)
Lemma binary_round_aux_opp prec emax s m e l :
  SFopp (SpecFloat.binary_round_aux prec emax s m e l)
  = SpecFloat.binary_round_aux prec emax (negb s) m e l.
Proof.
  unfold SpecFloat.binary_round_aux.
  destruct (SpecFloat.shr_fexp prec emax m e l) as [mrs' e'].
  destruct (SpecFloat.shr_fexp prec emax _ e' SpecFloat.loc_Exact) as [mrs'' e''].
  destruct (SpecFloat.shr_m mrs''); try reflexivity.
  destruct (_ <=? _)%Z; reflexivity.
Qed.

(** Negating the first operand negates a product and a quotient. *)
Lemma mul_opp_l (x y : float) : (- x) * y = - (x * y).
Proof.
  apply Prim2SF_inj. rewrite FloatAxioms.opp_spec, !FloatAxioms.mul_spec, FloatAxioms.opp_spec.
  unfold SF64mul.
  destruct (Prim2SF x) as [sx | sx | | sx mx ex],
           (Prim2SF y) as [sy | sy | | sy my ey]; cbn [SFmul SFopp];
    try reflexivity; try (rewrite negb_xorb_l; reflexivity).
  rewrite binary_round_aux_opp, negb_xorb_l. reflexivity.
Qed.

Lemma div_opp_l (x y : float) : (- x) / y = - (x / y).
Proof.
  apply Prim2SF_inj. rewrite FloatAxioms.opp_spec, !FloatAxioms.div_spec, FloatAxioms.opp_spec.
  unfold SF64div.
  destruct (Prim2SF x) as [sx | sx | | sx mx ex],
           (Prim2SF y) as [sy | sy | | sy my ey]; cbn [SFdiv SFopp];
    try reflexivity; try (rewrite negb_xorb_l; reflexivity).
  destruct (SpecFloat.SFdiv_core_binary _ _ _ _ _ _) as [[mz ez] lz].
  rewrite binary_round_aux_opp, negb_xorb_l. reflexivity.
Qed.

End FloatFacts.

(** * [Init] as the composition of its stages *)

Section InitStages.
Import Double Stages.
Open Scope float_scope.

Lemma Init_CTB109_stages
    (m : Libm) (P : Pluto) (cfg : Config) (g : param -> float)
    (now : Z) (rand_seq : Z -> nat -> Z) (us : state) (x1 x2 x3 : float) :
  CTB_109.Init m P cfg g now rand_seq us x1 x2 x3 =
  potential cfg (field_CTB_109 m P g (hydro_CTB_109 m P cfg g us x1 x2 x3))
            x1 x2.
Proof. reflexivity. Qed.

Lemma Init_part001_stages
    (m : Libm) (P : Pluto) (cfg : Config) (g : param -> float)
    (us : state) (x1 x2 x3 : float) :
  Part_001.Init m P cfg g us x1 x2 x3 =
  potential cfg (hydro_Part_001 m P cfg g us x1 x2 x3) x1 x2.
Proof. reflexivity. Qed.

(** The closing block and the field block leave the hydrodynamic
    slots alone. *)
Lemma potential_hydro (cfg : Config) (s : state) (x1 x2 : float) (v : var) :
  In v Ejecta.hydro -> potential cfg s x1 x2 v = s v.
Proof.
  intros Hv. cbn in Hv. unfold potential.
  destruct Hv as [E | [E | [E | [E | [E | []]]]]]; subst v;
    destruct (BACKGROUND_FIELD cfg), (GEOMETRY cfg); reflexivity.
Qed.

Lemma field_CTB109_hydro
    (m : Libm) (P : Pluto) (g : param -> float) (s : state) (v : var) :
  In v Ejecta.hydro -> field_CTB_109 m P g s v = s v.
Proof.
  intros Hv. cbn in Hv.
  destruct Hv as [E | [E | [E | [E | [E | []]]]]]; subst v; reflexivity.
Qed.

Lemma Init_CTB109_hydro
    (m : Libm) (P : Pluto) (cfg : Config) (g : param -> float)
    (now : Z) (rand_seq : Z -> nat -> Z) (us : state) (x1 x2 x3 : float)
    (v : var) :
  In v Ejecta.hydro ->
  CTB_109.Init m P cfg g now rand_seq us x1 x2 x3 v =
  hydro_CTB_109 m P cfg g us x1 x2 x3 v.
Proof.
  intros Hv.
  rewrite Init_CTB109_stages, potential_hydro, field_CTB109_hydro by exact Hv.
  reflexivity.
Qed.

Lemma Init_part001_hydro
    (m : Libm) (P : Pluto) (cfg : Config) (g : param -> float)
    (us : state) (x1 x2 x3 : float) (v : var) :
  In v Ejecta.hydro ->
  Part_001.Init m P cfg g us x1 x2 x3 v =
  hydro_Part_001 m P cfg g us x1 x2 x3 v.
Proof.
  intros Hv. rewrite Init_part001_stages, potential_hydro by exact Hv.
  reflexivity.
Qed.

Lemma hydro_slots :
  In RHO Ejecta.hydro /\ In VX1 Ejecta.hydro /\ In VX2 Ejecta.hydro /\
  In VX3 Ejecta.hydro /\ In PRS Ejecta.hydro.
Proof. cbn. tauto. Qed.

(** With BACKGROUND_FIELD off the closing block leaves the magnetic
    field alone; with BACKGROUND_FIELD on it zeroes field and
    potential. *)
Lemma potential_field_off (cfg : Config) (s : state) (x1 x2 : float) (v : var) :
  BACKGROUND_FIELD cfg = false -> In v [BX1; BX2; BX3] ->
  potential cfg s x1 x2 v = s v.
Proof.
  intros Hb Hv. cbn in Hv. unfold potential. rewrite Hb.
  destruct Hv as [E | [E | [E | []]]]; subst v;
    destruct (GEOMETRY cfg); reflexivity.
Qed.

Lemma potential_background (cfg : Config) (s : state) (x1 x2 : float) (v : var) :
  BACKGROUND_FIELD cfg = true -> In v [BX1; BX2; BX3; AX1; AX2; AX3] ->
  potential cfg s x1 x2 v = 0.
Proof.
  intros Hb Hv. cbn in Hv. unfold potential. rewrite Hb.
  destruct Hv as [E | [E | [E | [E | [E | [E | []]]]]]]; subst v; reflexivity.
Qed.

(** The closing block reads the incoming array slot by slot: arrays
    that agree outside a set of slots it overwrites give the same
    result. *)
Lemma potential_ext_but_VX3
    (cfg : Config) (s1 s2 : state) (x1 x2 : float) (v : var) :
  (forall w, w <> VX3 -> s1 w = s2 w) -> v <> VX3 ->
  potential cfg s1 x1 x2 v = potential cfg s2 x1 x2 v.
Proof.
  intros H Hv. unfold potential.
  destruct (BACKGROUND_FIELD cfg), (GEOMETRY cfg), v;
    try congruence; cbn; rewrite ?H by discriminate; reflexivity.
Qed.

Lemma potential_ext_but_AX
    (cfg : Config) (s1 s2 : state) (x1 x2 : float) (v : var) :
  (forall w, ~ In w [AX1; AX2; AX3] -> s1 w = s2 w) ->
  GEOMETRY cfg = CARTESIAN \/ GEOMETRY cfg = CYLINDRICAL \/
  BACKGROUND_FIELD cfg = true ->
  potential cfg s1 x1 x2 v = potential cfg s2 x1 x2 v.
Proof.
  intros H Hc.
  assert (H' : forall w, (if In_dec var_eq_dec w [AX1; AX2; AX3]
                          then True else s1 w = s2 w)).
  { intros w. destruct (In_dec var_eq_dec w [AX1; AX2; AX3]); [exact I |].
    apply H. assumption. }
  pose proof (H' RHO) as H1. pose proof (H' VX1) as H2.
  pose proof (H' VX2) as H3. pose proof (H' VX3) as H4.
  pose proof (H' PRS) as H5. pose proof (H' BX1) as H6.
  pose proof (H' BX2) as H7. pose proof (H' BX3) as H8.
  cbn in H1, H2, H3, H4, H5, H6, H7, H8.
  unfold potential.
  destruct Hc as [Hg | [Hg | Hb]]; rewrite ?Hg, ?Hb;
    try destruct (BACKGROUND_FIELD cfg); try destruct (GEOMETRY cfg);
    destruct v; cbn; congruence.
Qed.

Lemma potential_ext_background
    (cfg : Config) (s1 s2 : state) (x1 x2 : float) (v : var) :
  (forall w, In w Ejecta.hydro -> s1 w = s2 w) ->
  BACKGROUND_FIELD cfg = true ->
  potential cfg s1 x1 x2 v = potential cfg s2 x1 x2 v.
Proof.
  intros H Hb. destruct hydro_slots as [Hs1 [Hs2 [Hs3 [Hs4 Hs5]]]].
  pose proof (H _ Hs1). pose proof (H _ Hs2). pose proof (H _ Hs3).
  pose proof (H _ Hs4). pose proof (H _ Hs5).
  unfold potential. rewrite Hb.
  destruct (GEOMETRY cfg), v; cbn; congruence.
Qed.

End InitStages.

(** Rewrites the five hydrodynamic slots of either [Init] as slots of
    its hydro stage. *)
Ltac to_hydro_stage :=
  destruct hydro_slots as [Hs1 [Hs2 [Hs3 [Hs4 Hs5]]]];
  rewrite ?(Init_CTB109_hydro _ _ _ _ _ _ _ _ _ _ RHO Hs1),
          ?(Init_CTB109_hydro _ _ _ _ _ _ _ _ _ _ VX1 Hs2),
          ?(Init_CTB109_hydro _ _ _ _ _ _ _ _ _ _ VX2 Hs3),
          ?(Init_CTB109_hydro _ _ _ _ _ _ _ _ _ _ VX3 Hs4),
          ?(Init_CTB109_hydro _ _ _ _ _ _ _ _ _ _ PRS Hs5),
          ?(Init_part001_hydro _ _ _ _ _ _ _ _ RHO Hs1),
          ?(Init_part001_hydro _ _ _ _ _ _ _ _ VX1 Hs2),
          ?(Init_part001_hydro _ _ _ _ _ _ _ _ VX2 Hs3),
          ?(Init_part001_hydro _ _ _ _ _ _ _ _ VX3 Hs4),
          ?(Init_part001_hydro _ _ _ _ _ _ _ _ PRS Hs5);
  clear Hs1 Hs2 Hs3 Hs4 Hs5.

(** * Field, background and origin properties of [Init] *)

Section InitField.
Import Double Stages.
Open Scope float_scope.

(** X2. With BACKGROUND_FIELD off, [Init] of init.c overwrites the
magnetic field with B0 in the direction (theta, phi) whatever the
incoming array holds, and in Cartesian geometry derives the vector
potential from that new field. *)
Theorem Init_CTB109_magnetic_field_assigned
    (m : Libm) (P : Pluto) (cfg : Config) (g_inputParam : param -> float)
    (now : Z) (rand_seq : Z -> nat -> Z) (us : state) (x1 x2 x3 : float) :
  BACKGROUND_FIELD cfg = false ->
  let theta := g_inputParam THETA * CONST_PI P / 180.0 in
  let phi := g_inputParam PHI * CONST_PI P / 180.0 in
  let B0 := g_inputParam BMAG in
  let us' := CTB_109.Init m P cfg g_inputParam now rand_seq us x1 x2 x3 in
  (us' BX1 = B0 * sin m theta * cos m phi /\
   us' BX2 = B0 * sin m theta * sin m phi /\
   us' BX3 = B0 * cos m theta) /\
  (GEOMETRY cfg = CARTESIAN ->
     us' AX1 = 0 /\ us' AX2 = us' BX3 * x1 /\
     us' AX3 = - us' BX2 * x1 + us' BX1 * x2).
Proof.
  intros Hbg theta phi B0 us'. subst theta phi B0 us'.
  rewrite Init_CTB109_stages.
  set (h := hydro_CTB_109 m P cfg g_inputParam us x1 x2 x3).
  unfold potential, field_CTB_109. rewrite Hbg. cbv zeta.
  split; [destruct (GEOMETRY cfg); repeat split |].
  intros Hg. rewrite Hg. repeat split.
Qed.

Lemma Init_CTB109_magnetic_field_assigned_witness :
  let us' := CTB_109.Init Sample.libm_F9 Sample.pluto_h definitions_h
               Sample.params_unit 5 (Sample.rand_const 3)
               Sample.us_marked 0.5 0.25 0 in
  us' BX1 = 0 /\ us' BX2 = 0 /\ us' BX3 = 1 /\
  us' AX1 = 0 /\ us' AX2 = 0.5 /\ us' AX3 = 0.
Proof.
  destruct (Init_CTB109_magnetic_field_assigned
              Sample.libm_F9 Sample.pluto_h definitions_h
              Sample.params_unit 5 (Sample.rand_const 3)
              Sample.us_marked 0.5 0.25 0 eq_refl) as [[H1 [H2 H3]] Hc].
  destruct (Hc eq_refl) as [H4 [H5 H6]].
  cbv zeta. rewrite H6, H5, H4, H1, H2, H3.
  vm_compute. repeat split; reflexivity.
Defined.

(** X3. With BACKGROUND_FIELD == YES both versions of [Init] leave the
three magnetic field entries and the three vector potential entries
equal to zero, in every geometry. *)
Theorem Init_background_field_zero
    (m : Libm) (P : Pluto) (cfg : Config) (g_inputParam : param -> float)
    (now : Z) (rand_seq : Z -> nat -> Z) (us : state) (x1 x2 x3 : float)
    (v : var) :
  BACKGROUND_FIELD cfg = true ->
  In v [BX1; BX2; BX3; AX1; AX2; AX3] ->
  CTB_109.Init m P cfg g_inputParam now rand_seq us x1 x2 x3 v = 0 /\
  Part_001.Init m P cfg g_inputParam us x1 x2 x3 v = 0.
Proof.
  intros Hbg Hv.
  rewrite Init_CTB109_stages, Init_part001_stages.
  rewrite !potential_background by assumption. split; reflexivity.
Qed.

Lemma Init_background_field_zero_witness :
  let cfg := {| GEOMETRY := CYLINDRICAL; DIMENSIONS := DIM2;
                BACKGROUND_FIELD := true; ADD_TURBULENCE := false |} in
  CTB_109.Init Sample.libm_F9 Sample.pluto_h cfg Sample.params_unit
    5 (Sample.rand_const 3) Sample.us_marked 0.5 0.25 0 BX2 = 0 /\
  Part_001.Init Sample.libm_F9 Sample.pluto_h cfg Sample.params_unit
    Sample.us_marked 0.5 0.25 0 BX2 = 0.
Proof.
  cbv zeta.
  apply (Init_background_field_zero Sample.libm_F9 Sample.pluto_h
           {| GEOMETRY := CYLINDRICAL; DIMENSIONS := DIM2;
              BACKGROUND_FIELD := true; ADD_TURBULENCE := false |}
           Sample.params_unit 5 (Sample.rand_const 3) Sample.us_marked
           0.5 0.25 0 BX2 eq_refl).
  cbn. tauto.
Defined.

(** X4. With ADD_TURBULENCE off and r_c < 0 <= R_ej, [Init] of the
later revision runs its shell branch at the origin: the density left
in us is rho_ch*fnc*pow(0/R_ej, -n) and the pressure follows it. *)
Theorem Init_part001_origin_shell
    (m : Libm) (P : Pluto) (cfg : Config) (g_inputParam : param -> float)
    (us : state) (s1 s2 s3 : bool) :
  ADD_TURBULENCE cfg = false ->
  (Part_001.r_c g_inputParam <? 0) && (0 <=? Part_001.R_ej g_inputParam)
    = true ->
  let us' := Part_001.Init m P cfg g_inputParam us
               (zero s1) (zero s2) (zero s3) in
  let rho := Part_001.rho_ch m g_inputParam * Part_001.fnc m P g_inputParam
             * pow m (0 / Part_001.R_ej g_inputParam)
                     (- Part_001.n g_inputParam) in
  us' RHO = rho /\
  us' PRS = rho * CONST_kB P * Part_001.T g_inputParam / 1.67e-6.
Proof.
  intros Hturb Hshell us' rho. subst us' rho. to_hydro_stage.
  unfold hydro_Part_001. cbv zeta.
  rewrite radius_origin, Hturb, Hshell.
  change (negb (0 =? 0)) with false. rewrite andb_false_r.
  split; reflexivity.
Qed.

Lemma Init_part001_origin_shell_witness :
  is_nan (Part_001.Init Sample.libm_F9 Sample.pluto_h definitions_h
            Sample.params_negative_core Sample.us_marked 0 0 0 RHO) = true.
Proof.
  destruct (Init_part001_origin_shell Sample.libm_F9 Sample.pluto_h
              definitions_h Sample.params_negative_core Sample.us_marked
              false false false eq_refl eq_refl) as [Hrho _].
  cbv zeta in Hrho. unfold zero in Hrho. rewrite Hrho.
  vm_compute. reflexivity.
Defined.

End InitField.

(** * The three regions of [Init] *)

Section InitRegions.
Import Double Ejecta Stages.
Open Scope float_scope.

(** The two ejecta tests never hold together. *)
Lemma in_core_not_in_shell (r r_c R_ej : float) :
  in_core r r_c = true -> in_shell r r_c R_ej = false.
Proof.
  unfold in_core, in_shell. intros H.
  apply andb_true_iff in H. destruct H as [Hle _].
  rewrite (leb_true_ltb_false _ _ Hle). reflexivity.
Qed.

Lemma in_shell_not_in_core (r r_c R_ej : float) :
  in_shell r r_c R_ej = true -> in_core r r_c = false.
Proof.
  intros H. destruct (in_core r r_c) eqn:E; [| reflexivity].
  rewrite (in_core_not_in_shell _ _ R_ej E) in H. discriminate H.
Qed.

(** X5. For every position, [Init] of CTB_109/init.c leaves one of
    three hydrodynamic states.  Where [r <= r_c && r != 0] holds the
    shell test fails and us holds the uniform core (density rho_c);
    where [r > r_c && r <= R_ej] holds the core test fails and us holds
    the power-law shell; where both fail and ADD_TURBULENCE is off, us
    holds the ambient medium. *)
Theorem Init_CTB109_regions
    (m : Libm) (P : Pluto) (cfg : Config) (g_inputParam : param -> float)
    (now : Z) (rand_seq : Z -> nat -> Z) (us : state) (x1 x2 x3 : float) :
  let r := radius cfg x1 x2 x3 in
  let r_c := CTB_109.r_c m P g_inputParam in
  let R_ej := CTB_109.R_ej g_inputParam in
  let rho_c := CTB_109.rho_c m P g_inputParam in
  let n_ISM := CTB_109.n_ISM g_inputParam in
  let rxy := sqrt (x1 * x1 + x2 * x2) in
  let v1 := R_ej / CTB_109.time0 * (rxy / r) * (x1 / rxy) in
  let v2 := R_ej / CTB_109.time0 * (rxy / r) * (x2 / rxy) in
  let v3 := R_ej / CTB_109.time0 * (abs x3 / r) in
  let shell := rho_c * pow m (r / r_c) (- CTB_109.n g_inputParam) in
  let us' := CTB_109.Init m P cfg g_inputParam now rand_seq us x1 x2 x3 in
  (in_core r r_c = true ->
     in_shell r r_c R_ej = false /\
     us' RHO = rho_c /\ us' VX1 = v1 /\ us' VX2 = v2 /\ us' VX3 = v3 /\
     us' PRS = rho_c * CONST_kB P * CTB_109.T / 1.67e-6) /\
  (in_shell r r_c R_ej = true ->
     in_core r r_c = false /\
     us' RHO = shell /\ us' VX1 = v1 /\ us' VX2 = v2 /\ us' VX3 = v3 /\
     us' PRS = shell * CONST_kB P * CTB_109.T / 1.67e-6) /\
  (in_core r r_c = false -> in_shell r r_c R_ej = false ->
   ADD_TURBULENCE cfg = false ->
     us' RHO = n_ISM /\ us' VX1 = 0 /\ us' VX2 = 0 /\ us' VX3 = 0 /\
     us' PRS = n_ISM * CONST_kB P * CTB_109.T / 1.67e-6).
Proof.
  intros r r_c R_ej rho_c n_ISM rxy v1 v2 v3 shell us'.
  subst us'. to_hydro_stage.
  subst r r_c R_ej. unfold in_core, in_shell, radius, hydro_CTB_109.
  cbv zeta.
  split; [| split].
  - intros Hcore. pose proof (in_core_not_in_shell _ _ (CTB_109.R_ej g_inputParam) Hcore)
      as Hshell.
    unfold in_core, in_shell in Hcore, Hshell.
    split; [exact Hshell |]. rewrite Hcore, Hshell.
    repeat split; reflexivity.
  - intros Hshell. pose proof (in_shell_not_in_core _ _ _ Hshell) as Hcore.
    unfold in_core, in_shell in Hcore, Hshell.
    split; [exact Hcore |]. rewrite Hshell.
    repeat split; reflexivity.
  - intros Hcore Hshell Hturb. rewrite Hcore, Hshell, Hturb.
    repeat split; reflexivity.
Qed.

Lemma Init_CTB109_regions_witness :
  CTB_109.Init Sample.libm_F9 Sample.pluto_h definitions_h Sample.params_unit
    5 (Sample.rand_const 3) Sample.us_marked 0.5 0.25 0 RHO
  = CTB_109.rho_c Sample.libm_F9 Sample.pluto_h Sample.params_unit /\
  CTB_109.Init Sample.libm_F9 Sample.pluto_h definitions_h Sample.params_unit
    5 (Sample.rand_const 3) Sample.us_marked 0.98 0 0 VX1
  = 1 / CTB_109.time0 * (sqrt (0.98 * 0.98 + 0 * 0) / radius definitions_h 0.98 0 0)
    * (0.98 / sqrt (0.98 * 0.98 + 0 * 0)) /\
  CTB_109.Init Sample.libm_F9 Sample.pluto_h definitions_h Sample.params_unit
    5 (Sample.rand_const 3) Sample.us_marked 2 0 0 RHO = 1.
Proof.
  split; [| split].
  - destruct (Init_CTB109_regions Sample.libm_F9 Sample.pluto_h definitions_h
                Sample.params_unit 5 (Sample.rand_const 3) Sample.us_marked
                0.5 0.25 0) as [Hcore _].
    destruct (Hcore eq_refl) as [_ [H _]]. exact H.
  - destruct (Init_CTB109_regions Sample.libm_F9 Sample.pluto_h definitions_h
                Sample.params_unit 5 (Sample.rand_const 3) Sample.us_marked
                0.98 0 0) as [_ [Hshell _]].
    destruct (Hshell eq_refl) as [_ [_ [H _]]]. exact H.
  - destruct (Init_CTB109_regions Sample.libm_F9 Sample.pluto_h definitions_h
                Sample.params_unit 5 (Sample.rand_const 3) Sample.us_marked
                2 0 0) as [_ [_ Hamb]].
    destruct (Hamb eq_refl eq_refl eq_refl) as [H _]. exact H.
Defined.

(** X6. For every position, [Init] of the later revision leaves one of
    three hydrodynamic states.  Where [r <= r_c && r != 0] holds the
    shell test fails and us holds the uniform core of density
    rho_ch*fnc*pow(w_c,-n); where [r > r_c && r <= R_ej] holds the core
    test fails and us holds the shell of density
    rho_ch*fnc*pow(r/R_ej,-n); in both the velocity is (x/t)*eta.
    Where both tests fail and ADD_TURBULENCE is off, us holds the
    ambient medium. *)
Theorem Init_part001_regions
    (m : Libm) (P : Pluto) (cfg : Config) (g_inputParam : param -> float)
    (us : state) (x1 x2 x3 : float) :
  let r := radius cfg x1 x2 x3 in
  let r_c := Part_001.r_c g_inputParam in
  let R_ej := Part_001.R_ej g_inputParam in
  let n_ISM := Part_001.n_ISM g_inputParam in
  let T := Part_001.T g_inputParam in
  let t := Part_001.t m g_inputParam in
  let eta := Part_001.eta_at m P g_inputParam r in
  let core := Part_001.rho_ch m g_inputParam * Part_001.fnc m P g_inputParam
              * pow m (Part_001.w_c g_inputParam) (- Part_001.n g_inputParam) in
  let shell := Part_001.rho_ch m g_inputParam * Part_001.fnc m P g_inputParam
               * pow m (r / R_ej) (- Part_001.n g_inputParam) in
  let us' := Part_001.Init m P cfg g_inputParam us x1 x2 x3 in
  (in_core r r_c = true ->
     in_shell r r_c R_ej = false /\
     us' RHO = core /\ us' VX1 = (x1 / t) * eta /\ us' VX2 = (x2 / t) * eta /\
     us' VX3 = (x3 / t) * eta /\
     us' PRS = core * CONST_kB P * T / 1.67e-6) /\
  (in_shell r r_c R_ej = true ->
     in_core r r_c = false /\
     us' RHO = shell /\ us' VX1 = (x1 / t) * eta /\ us' VX2 = (x2 / t) * eta /\
     us' VX3 = (x3 / t) * eta /\
     us' PRS = shell * CONST_kB P * T / 1.67e-6) /\
  (in_core r r_c = false -> in_shell r r_c R_ej = false ->
   ADD_TURBULENCE cfg = false ->
     us' RHO = n_ISM /\ us' VX1 = 0 /\ us' VX2 = 0 /\ us' VX3 = 0 /\
     us' PRS = n_ISM * CONST_kB P * T / 1.67e-6).
Proof.
  intros r r_c R_ej n_ISM T t eta core shell us'.
  subst us'. to_hydro_stage.
  subst r r_c R_ej. unfold in_core, in_shell, radius, hydro_Part_001.
  cbv zeta.
  split; [| split].
  - intros Hcore. pose proof (in_core_not_in_shell _ _ (Part_001.R_ej g_inputParam) Hcore)
      as Hshell.
    unfold in_core, in_shell in Hcore, Hshell.
    split; [exact Hshell |]. rewrite Hcore, Hshell.
    repeat split; reflexivity.
  - intros Hshell. pose proof (in_shell_not_in_core _ _ _ Hshell) as Hcore.
    unfold in_core, in_shell in Hcore, Hshell.
    split; [exact Hcore |]. rewrite Hshell.
    repeat split; reflexivity.
  - intros Hcore Hshell Hturb. rewrite Hcore, Hshell, Hturb.
    repeat split; reflexivity.
Qed.

Lemma Init_part001_regions_witness :
  Part_001.Init Sample.libm_F9 Sample.pluto_h definitions_h params_half_core
    Sample.us_marked 0.25 0.25 0 VX1
  = (0.25 / Part_001.t Sample.libm_F9 params_half_core)
    * Part_001.eta_at Sample.libm_F9 Sample.pluto_h params_half_core
        (radius definitions_h 0.25 0.25 0) /\
  Part_001.Init Sample.libm_F9 Sample.pluto_h definitions_h params_half_core
    Sample.us_marked 0.5 0.5 0 VX2
  = (0.5 / Part_001.t Sample.libm_F9 params_half_core)
    * Part_001.eta_at Sample.libm_F9 Sample.pluto_h params_half_core
        (radius definitions_h 0.5 0.5 0) /\
  Part_001.Init Sample.libm_F9 Sample.pluto_h definitions_h params_half_core
    Sample.us_marked 2 0 0 RHO = 1.
Proof.
  split; [| split].
  - destruct (Init_part001_regions Sample.libm_F9 Sample.pluto_h definitions_h
                params_half_core Sample.us_marked 0.25 0.25 0) as [Hcore _].
    destruct (Hcore eq_refl) as [_ [_ [H _]]]. exact H.
  - destruct (Init_part001_regions Sample.libm_F9 Sample.pluto_h definitions_h
                params_half_core Sample.us_marked 0.5 0.5 0) as [_ [Hshell _]].
    destruct (Hshell eq_refl) as [_ [_ [_ [H _]]]]. exact H.
  - destruct (Init_part001_regions Sample.libm_F9 Sample.pluto_h definitions_h
                params_half_core Sample.us_marked 2 0 0) as [_ [_ Hamb]].
    destruct (Hamb eq_refl eq_refl eq_refl) as [H _]. exact H.
Defined.

(** X7. A core radius that is a NaN, or a position whose radius is a
    NaN, fails both ejecta tests: with ADD_TURBULENCE off both versions
    of [Init] then leave the ambient medium in us, whatever the other
    parameters are. *)
Theorem Init_nan_ambient
    (m : Libm) (P : Pluto) (cfg : Config) (g_inputParam : param -> float)
    (now : Z) (rand_seq : Z -> nat -> Z) (us : state) (x1 x2 x3 : float) :
  ADD_TURBULENCE cfg = false ->
  let r := radius cfg x1 x2 x3 in
  (is_nan (CTB_109.r_c m P g_inputParam) = true \/ is_nan r = true ->
   let us' := CTB_109.Init m P cfg g_inputParam now rand_seq us x1 x2 x3 in
   us' RHO = CTB_109.n_ISM g_inputParam /\
   us' VX1 = 0 /\ us' VX2 = 0 /\ us' VX3 = 0 /\
   us' PRS = CTB_109.n_ISM g_inputParam * CONST_kB P * CTB_109.T / 1.67e-6)
  /\
  (is_nan (Part_001.r_c g_inputParam) = true \/ is_nan r = true ->
   let us' := Part_001.Init m P cfg g_inputParam us x1 x2 x3 in
   us' RHO = Part_001.n_ISM g_inputParam /\
   us' VX1 = 0 /\ us' VX2 = 0 /\ us' VX3 = 0 /\
   us' PRS = Part_001.n_ISM g_inputParam * CONST_kB P
             * Part_001.T g_inputParam / 1.67e-6).
Proof.
  intros Hturb r.
  assert (Hfail : forall r_c R_ej,
             is_nan r_c = true \/ is_nan r = true ->
             (r <=? r_c) && negb (r =? 0) = false /\
             (r_c <? r) && (r <=? R_ej) = false).
  { intros r_c R_ej [Hn | Hn].
    - destruct (nan_not_comparable r_c r Hn) as [H1 [_ [_ H4]]].
      rewrite H1, H4. split; reflexivity.
    - destruct (nan_not_comparable r r_c Hn) as [_ [H2 [H3 _]]].
      rewrite H2, H3. split; reflexivity. }
  subst r. unfold radius in *.
  split; intros Hnan; cbv zeta; to_hydro_stage.
  - destruct (Hfail _ (CTB_109.R_ej g_inputParam) Hnan) as [Hcore Hshell].
    unfold hydro_CTB_109. cbv zeta. rewrite Hturb, Hcore, Hshell.
    repeat split; reflexivity.
  - destruct (Hfail _ (Part_001.R_ej g_inputParam) Hnan) as [Hcore Hshell].
    unfold hydro_Part_001. cbv zeta. rewrite Hturb, Hcore, Hshell.
    repeat split; reflexivity.
Qed.

Lemma Init_nan_ambient_witness :
  CTB_109.Init Sample.libm_F9 Sample.pluto_h definitions_h Sample.params_unit
    5 (Sample.rand_const 3) Sample.us_marked nan 0.25 0 RHO = 1 /\
  Part_001.Init Sample.libm_F9 Sample.pluto_h definitions_h params_nan_core
    Sample.us_marked 0.5 0.25 0 RHO = 1.
Proof.
  split.
  - destruct (Init_nan_ambient Sample.libm_F9 Sample.pluto_h definitions_h
                Sample.params_unit 5 (Sample.rand_const 3) Sample.us_marked
                nan 0.25 0 eq_refl) as [H _].
    destruct (H (or_intror eq_refl)) as [Hrho _]. exact Hrho.
  - destruct (Init_nan_ambient Sample.libm_F9 Sample.pluto_h definitions_h
                params_nan_core 5 (Sample.rand_const 3) Sample.us_marked
                0.5 0.25 0 eq_refl) as [_ H].
    destruct (H (or_introl eq_refl)) as [Hrho _]. exact Hrho.
Defined.

(** X8. Beyond both radii (r_c < r and R_ej < r) and with
    ADD_TURBULENCE off, both versions of [Init] leave the ambient
    medium in us. *)
Theorem Init_outside_ambient
    (m : Libm) (P : Pluto) (cfg : Config) (g_inputParam : param -> float)
    (now : Z) (rand_seq : Z -> nat -> Z) (us : state) (x1 x2 x3 : float) :
  ADD_TURBULENCE cfg = false ->
  let r := radius cfg x1 x2 x3 in
  ((CTB_109.r_c m P g_inputParam <? r) = true ->
   (CTB_109.R_ej g_inputParam <? r) = true ->
   let us' := CTB_109.Init m P cfg g_inputParam now rand_seq us x1 x2 x3 in
   us' RHO = CTB_109.n_ISM g_inputParam /\
   us' VX1 = 0 /\ us' VX2 = 0 /\ us' VX3 = 0 /\
   us' PRS = CTB_109.n_ISM g_inputParam * CONST_kB P * CTB_109.T / 1.67e-6)
  /\
  ((Part_001.r_c g_inputParam <? r) = true ->
   (Part_001.R_ej g_inputParam <? r) = true ->
   let us' := Part_001.Init m P cfg g_inputParam us x1 x2 x3 in
   us' RHO = Part_001.n_ISM g_inputParam /\
   us' VX1 = 0 /\ us' VX2 = 0 /\ us' VX3 = 0 /\
   us' PRS = Part_001.n_ISM g_inputParam * CONST_kB P
             * Part_001.T g_inputParam / 1.67e-6).
Proof.
  intros Hturb r. subst r. unfold radius.
  split; intros Hc He; cbv zeta; to_hydro_stage.
  - unfold hydro_CTB_109. cbv zeta.
    rewrite Hturb, Hc, (ltb_true_leb_false _ _ Hc), (ltb_true_leb_false _ _ He).
    repeat split; reflexivity.
  - unfold hydro_Part_001. cbv zeta.
    rewrite Hturb, Hc, (ltb_true_leb_false _ _ Hc), (ltb_true_leb_false _ _ He).
    repeat split; reflexivity.
Qed.

Lemma Init_outside_ambient_witness :
  CTB_109.Init Sample.libm_F9 Sample.pluto_h definitions_h Sample.params_unit
    5 (Sample.rand_const 3) Sample.us_marked 2 1 0 PRS
  = 1 * 1.3807e-16 * 1.0e4 / 1.67e-6 /\
  Part_001.Init Sample.libm_F9 Sample.pluto_h definitions_h params_half_core
    Sample.us_marked 2 1 0 VX2 = 0.
Proof.
  split.
  - destruct (Init_outside_ambient Sample.libm_F9 Sample.pluto_h definitions_h
                Sample.params_unit 5 (Sample.rand_const 3) Sample.us_marked
                2 1 0 eq_refl) as [H _].
    destruct (H eq_refl eq_refl) as [_ [_ [_ [_ Hprs]]]]. exact Hprs.
  - destruct (Init_outside_ambient Sample.libm_F9 Sample.pluto_h definitions_h
                params_half_core 5 (Sample.rand_const 3) Sample.us_marked
                2 1 0 eq_refl) as [_ H].
    destruct (H eq_refl eq_refl) as [_ [_ [Hv _]]]. exact Hv.
Defined.

(** X16. Both versions of [Init] leave an isothermal state: wherever
    ADD_TURBULENCE is off or one of the two ejecta tests holds,
    us[PRS] is us[RHO]*CONST_kB*T/1.67e-6, with T = 1.0e4 in
    CTB_109/init.c and T = g_inputParam[Temp] in the later revision. *)
Theorem Init_isothermal
    (m : Libm) (P : Pluto) (cfg : Config) (g_inputParam : param -> float)
    (now : Z) (rand_seq : Z -> nat -> Z) (us : state) (x1 x2 x3 : float) :
  let r := radius cfg x1 x2 x3 in
  (ADD_TURBULENCE cfg = false \/
   in_core r (CTB_109.r_c m P g_inputParam)
   || in_shell r (CTB_109.r_c m P g_inputParam) (CTB_109.R_ej g_inputParam)
   = true ->
   let us' := CTB_109.Init m P cfg g_inputParam now rand_seq us x1 x2 x3 in
   us' PRS = us' RHO * CONST_kB P * CTB_109.T / 1.67e-6) /\
  (ADD_TURBULENCE cfg = false \/
   in_core r (Part_001.r_c g_inputParam)
   || in_shell r (Part_001.r_c g_inputParam) (Part_001.R_ej g_inputParam)
   = true ->
   let us' := Part_001.Init m P cfg g_inputParam us x1 x2 x3 in
   us' PRS = us' RHO * CONST_kB P * Part_001.T g_inputParam / 1.67e-6).
Proof.
  intros r. subst r. unfold in_core, in_shell, radius.
  split; intros H; cbv zeta; to_hydro_stage.
  - unfold hydro_CTB_109. cbv zeta.
    set (core := (_ <=? _) && negb _) in *.
    set (shell := (_ <? _) && (_ <=? _)) in *.
    destruct H as [H | H]; [rewrite H |];
      destruct core, shell; try discriminate H; try reflexivity;
      destruct (ADD_TURBULENCE cfg); reflexivity.
  - unfold hydro_Part_001. cbv zeta.
    set (core := (_ <=? _) && negb _) in *.
    set (shell := (_ <? _) && (_ <=? _)) in *.
    destruct H as [H | H]; [rewrite H |];
      destruct core, shell; try discriminate H; try reflexivity;
      destruct (ADD_TURBULENCE cfg); reflexivity.
Qed.

Lemma Init_isothermal_witness :
  (let us' := CTB_109.Init Sample.libm_F9 Sample.pluto_h
                Sample.definitions_h_turbulent Sample.params_unit
                5 (Sample.rand_const 3) Sample.us_marked 0.5 0.25 0 in
   us' PRS = us' RHO * 1.3807e-16 * 1.0e4 / 1.67e-6) /\
  (let us' := Part_001.Init Sample.libm_F9 Sample.pluto_h definitions_h
                params_half_core Sample.us_marked 2 1 0 in
   us' PRS = us' RHO * 1.3807e-16 * 1 / 1.67e-6).
Proof.
  split.
  - exact (proj1 (Init_isothermal Sample.libm_F9 Sample.pluto_h
                    Sample.definitions_h_turbulent Sample.params_unit
                    5 (Sample.rand_const 3) Sample.us_marked 0.5 0.25 0)
                 (or_intror eq_refl)).
  - exact (proj2 (Init_isothermal Sample.libm_F9 Sample.pluto_h definitions_h
                    params_half_core 5 (Sample.rand_const 3)
                    Sample.us_marked 2 1 0)
                 (or_introl eq_refl)).
Defined.

End InitRegions.

(** * Symmetry, axis and frame properties of [Init] *)

Section InitSymmetry.
Import Double Ejecta Stages.
Open Scope float_scope.

(** On the x3 axis the in-plane direction x/sqrt(x1*x1+x2*x2) is 0/0. *)
Lemma axis_direction_nan (s1 s2 : bool) :
  zero s1 / sqrt (zero s1 * zero s1 + zero s2 * zero s2) = nan /\
  zero s2 / sqrt (zero s1 * zero s1 + zero s2 * zero s2) = nan.
Proof. destruct s1, s2; vm_compute; split; reflexivity. Qed.

(** X9. On the x3 axis (x1 and x2 zero, of either sign) every position
    that passes one of the two ejecta tests gets a NaN in us[VX1] and
    us[VX2] from [Init] of CTB_109/init.c: the factor
    x1/sqrt(x1*x1+x2*x2) is 0/0 there. *)
Theorem Init_CTB109_axis_velocity_nan
    (m : Libm) (P : Pluto) (cfg : Config) (g_inputParam : param -> float)
    (now : Z) (rand_seq : Z -> nat -> Z) (us : state)
    (s1 s2 : bool) (x3 : float) :
  let r := radius cfg (zero s1) (zero s2) x3 in
  let r_c := CTB_109.r_c m P g_inputParam in
  let R_ej := CTB_109.R_ej g_inputParam in
  in_core r r_c || in_shell r r_c R_ej = true ->
  let us' := CTB_109.Init m P cfg g_inputParam now rand_seq us
               (zero s1) (zero s2) x3 in
  is_nan (us' VX1) = true /\ is_nan (us' VX2) = true.
Proof.
  intros r r_c R_ej Hin. subst r r_c R_ej.
  unfold in_core, in_shell, radius in Hin. cbv zeta. to_hydro_stage.
  unfold hydro_CTB_109. cbv zeta.
  destruct (axis_direction_nan s1 s2) as [E1 E2]. rewrite E1, E2.
  rewrite !mul_nan_r.
  set (core := (_ <=? _) && negb _) in *.
  set (shell := (_ <? _) && (_ <=? _)) in *.
  destruct core, shell; try discriminate Hin; split; reflexivity.
Qed.

Lemma Init_CTB109_axis_velocity_nan_witness :
  is_nan (CTB_109.Init Sample.libm_F9 Sample.pluto_h definitions_h_3d
            Sample.params_unit 5 (Sample.rand_const 3) Sample.us_marked
            0 0 0.5 VX1) = true /\
  is_nan (CTB_109.Init Sample.libm_F9 Sample.pluto_h definitions_h_3d
            Sample.params_unit 5 (Sample.rand_const 3) Sample.us_marked
            0 0 0.5 VX2) = true.
Proof.
  exact (Init_CTB109_axis_velocity_nan Sample.libm_F9 Sample.pluto_h
           definitions_h_3d Sample.params_unit 5 (Sample.rand_const 3)
           Sample.us_marked false false 0.5 eq_refl).
Defined.

(** X10. With ADD_TURBULENCE off, [Init] of CTB_109/init.c leaves the
    same array at (x1, x2, -x3) as at (x1, x2, x3): x3 enters through
    x3*x3 and fabs(x3) only, so us[VX3] has the same sign on both sides
    of the plane x3 = 0. *)
Theorem Init_CTB109_mirror_x3
    (m : Libm) (P : Pluto) (cfg : Config) (g_inputParam : param -> float)
    (now : Z) (rand_seq : Z -> nat -> Z) (us : state) (x1 x2 x3 : float) :
  ADD_TURBULENCE cfg = false ->
  CTB_109.Init m P cfg g_inputParam now rand_seq us x1 x2 (- x3) =
  CTB_109.Init m P cfg g_inputParam now rand_seq us x1 x2 x3.
Proof.
  intros Hturb. rewrite !Init_CTB109_stages.
  assert (E : hydro_CTB_109 m P cfg g_inputParam us x1 x2 (- x3) =
              hydro_CTB_109 m P cfg g_inputParam us x1 x2 x3).
  { unfold hydro_CTB_109. cbv zeta.
    rewrite Hturb, mul_opp_opp, abs_opp. reflexivity. }
  rewrite E. reflexivity.
Qed.

Lemma Init_CTB109_mirror_x3_witness :
  CTB_109.Init Sample.libm_F9 Sample.pluto_h definitions_h_3d
    Sample.params_unit 5 (Sample.rand_const 3) Sample.us_marked
    0.5 0.25 (- 0.5) VX3
  = CTB_109.Init Sample.libm_F9 Sample.pluto_h definitions_h_3d
      Sample.params_unit 5 (Sample.rand_const 3) Sample.us_marked
      0.5 0.25 0.5 VX3.
Proof.
  exact (f_equal (fun s : state => s VX3)
           (Init_CTB109_mirror_x3 Sample.libm_F9 Sample.pluto_h
              definitions_h_3d Sample.params_unit 5 (Sample.rand_const 3)
              Sample.us_marked 0.5 0.25 0.5 eq_refl)).
Defined.

(** X11. With ADD_TURBULENCE off, [Init] of the later revision leaves
    at (x1, x2, -x3) the array it leaves at (x1, x2, x3) in every slot
    but us[VX3]; inside the ejecta (either test passed) us[VX3] is the
    negated value, outside it is 0.0 on both sides. *)
Theorem Init_part001_mirror_x3
    (m : Libm) (P : Pluto) (cfg : Config) (g_inputParam : param -> float)
    (us : state) (x1 x2 x3 : float) :
  ADD_TURBULENCE cfg = false ->
  let r := radius cfg x1 x2 x3 in
  let r_c := Part_001.r_c g_inputParam in
  let R_ej := Part_001.R_ej g_inputParam in
  let a := Part_001.Init m P cfg g_inputParam us x1 x2 x3 in
  let b := Part_001.Init m P cfg g_inputParam us x1 x2 (- x3) in
  (forall v, v <> VX3 -> b v = a v) /\
  b VX3 = (if in_core r r_c || in_shell r r_c R_ej then - a VX3 else a VX3).
Proof.
  intros Hturb r r_c R_ej a b. subst r r_c R_ej a b.
  unfold in_core, in_shell, radius. rewrite !Init_part001_stages.
  assert (E : (forall w, w <> VX3 ->
                 hydro_Part_001 m P cfg g_inputParam us x1 x2 (- x3) w =
                 hydro_Part_001 m P cfg g_inputParam us x1 x2 x3 w) /\
              hydro_Part_001 m P cfg g_inputParam us x1 x2 (- x3) VX3 =
              (if ((sqrt (D_EXPAND cfg (x1 * x1) (x2 * x2) (x3 * x3))
                    <=? Part_001.r_c g_inputParam)
                   && negb (sqrt (D_EXPAND cfg (x1 * x1) (x2 * x2) (x3 * x3))
                            =? 0))
                  || ((Part_001.r_c g_inputParam
                       <? sqrt (D_EXPAND cfg (x1 * x1) (x2 * x2) (x3 * x3)))
                      && (sqrt (D_EXPAND cfg (x1 * x1) (x2 * x2) (x3 * x3))
                          <=? Part_001.R_ej g_inputParam))
               then - hydro_Part_001 m P cfg g_inputParam us x1 x2 x3 VX3
               else hydro_Part_001 m P cfg g_inputParam us x1 x2 x3 VX3)).
  { unfold hydro_Part_001. cbv zeta.
    rewrite Hturb, mul_opp_opp, !div_opp_l, !mul_opp_l.
    set (core := (_ <=? _) && negb _).
    set (shell := (_ <? _) && (_ <=? _)).
    split.
    - intros w Hw. destruct core, shell, w; try congruence; reflexivity.
    - destruct core, shell; reflexivity. }
  destruct E as [Eother Ev].
  split.
  - intros v Hv. apply potential_ext_but_VX3; assumption.
  - rewrite !(potential_hydro _ _ _ _ VX3) by (cbn; tauto). exact Ev.
Qed.

Lemma Init_part001_mirror_x3_witness :
  Part_001.Init Sample.libm_F9 Sample.pluto_h definitions_h_3d
    params_half_core Sample.us_marked 0.25 0.25 (- 0.25) RHO
  = Part_001.Init Sample.libm_F9 Sample.pluto_h definitions_h_3d
      params_half_core Sample.us_marked 0.25 0.25 0.25 RHO.
Proof.
  destruct (Init_part001_mirror_x3 Sample.libm_F9 Sample.pluto_h
              definitions_h_3d params_half_core Sample.us_marked
              0.25 0.25 0.25 eq_refl) as [H _].
  exact (H RHO ltac:(discriminate)).
Defined.

End InitSymmetry.

(** * What [Init] takes from the incoming array and the parameters *)

Section InitFrame.
Import Double Ejecta Stages.
Open Scope float_scope.

Lemma hydro_stage_overwrites
    (m : Libm) (P : Pluto) (cfg : Config) (g : param -> float)
    (us1 us2 : state) (x1 x2 x3 : float) (v : var) :
  ADD_TURBULENCE cfg = false -> In v hydro ->
  hydro_CTB_109 m P cfg g us1 x1 x2 x3 v = hydro_CTB_109 m P cfg g us2 x1 x2 x3 v /\
  hydro_Part_001 m P cfg g us1 x1 x2 x3 v = hydro_Part_001 m P cfg g us2 x1 x2 x3 v.
Proof.
  intros Hturb Hv. unfold hydro_CTB_109, hydro_Part_001. cbv zeta.
  rewrite Hturb.
  set (core1 := (_ <=? CTB_109.r_c _ _ _) && negb _).
  set (shell1 := (CTB_109.r_c _ _ _ <? _) && (_ <=? _)).
  set (core2 := (_ <=? Part_001.r_c _) && negb _).
  set (shell2 := (Part_001.r_c _ <? _) && (_ <=? _)).
  cbn in Hv.
  destruct Hv as [E | [E | [E | [E | [E | []]]]]]; subst v;
    destruct core1, shell1, core2, shell2; split; reflexivity.
Qed.

(** X12. With ADD_TURBULENCE off [Init] is an initialiser of the
    hydrodynamic slots: in both versions us[RHO], us[VX1..VX3] and
    us[PRS] do not depend on what the incoming array holds.  In
    CTB_109/init.c this extends to all eleven slots whenever the
    geometry is Cartesian or cylindrical or BACKGROUND_FIELD is YES;
    in the later revision it extends to all slots when
    BACKGROUND_FIELD is YES. *)
Theorem Init_overwrites
    (m : Libm) (P : Pluto) (cfg : Config) (g_inputParam : param -> float)
    (now : Z) (rand_seq : Z -> nat -> Z) (us1 us2 : state)
    (x1 x2 x3 : float) (v : var) :
  ADD_TURBULENCE cfg = false ->
  (In v hydro ->
     CTB_109.Init m P cfg g_inputParam now rand_seq us1 x1 x2 x3 v =
     CTB_109.Init m P cfg g_inputParam now rand_seq us2 x1 x2 x3 v /\
     Part_001.Init m P cfg g_inputParam us1 x1 x2 x3 v =
     Part_001.Init m P cfg g_inputParam us2 x1 x2 x3 v) /\
  (GEOMETRY cfg = CARTESIAN \/ GEOMETRY cfg = CYLINDRICAL \/
   BACKGROUND_FIELD cfg = true ->
     CTB_109.Init m P cfg g_inputParam now rand_seq us1 x1 x2 x3 v =
     CTB_109.Init m P cfg g_inputParam now rand_seq us2 x1 x2 x3 v) /\
  (BACKGROUND_FIELD cfg = true ->
     Part_001.Init m P cfg g_inputParam us1 x1 x2 x3 v =
     Part_001.Init m P cfg g_inputParam us2 x1 x2 x3 v).
Proof.
  intros Hturb. split; [| split].
  - intros Hv. rewrite !Init_CTB109_hydro, !Init_part001_hydro by exact Hv.
    apply hydro_stage_overwrites; assumption.
  - intros Hc. rewrite !Init_CTB109_stages.
    apply potential_ext_but_AX; [| exact Hc].
    intros w Hw. unfold field_CTB_109. cbv zeta.
    destruct w; try (exfalso; apply Hw; cbn; tauto); cbn;
      try reflexivity;
      apply hydro_stage_overwrites; try exact Hturb; cbn; tauto.
  - intros Hb. rewrite !Init_part001_stages.
    apply potential_ext_background; [| exact Hb].
    intros w Hw. apply hydro_stage_overwrites; assumption.
Qed.

Lemma Init_overwrites_witness :
  CTB_109.Init Sample.libm_F9 Sample.pluto_h definitions_h Sample.params_unit
    5 (Sample.rand_const 3) Sample.us_marked 0.5 0.25 0 AX2
  = CTB_109.Init Sample.libm_F9 Sample.pluto_h definitions_h Sample.params_unit
      5 (Sample.rand_const 3) (fun _ => 0) 0.5 0.25 0 AX2 /\
  Part_001.Init Sample.libm_F9 Sample.pluto_h definitions_h Sample.params_unit
    Sample.us_marked 0.5 0.25 0 PRS
  = Part_001.Init Sample.libm_F9 Sample.pluto_h definitions_h Sample.params_unit
      (fun _ => 0) 0.5 0.25 0 PRS.
Proof.
  split.
  - destruct (Init_overwrites Sample.libm_F9 Sample.pluto_h definitions_h
                Sample.params_unit 5 (Sample.rand_const 3) Sample.us_marked
                (fun _ => 0) 0.5 0.25 0 AX2 eq_refl) as [_ [H _]].
    exact (H (or_introl eq_refl)).
  - destruct (Init_overwrites Sample.libm_F9 Sample.pluto_h definitions_h
                Sample.params_unit 5 (Sample.rand_const 3) Sample.us_marked
                (fun _ => 0) 0.5 0.25 0 PRS eq_refl) as [H _].
    refine (proj2 (H _)). cbn. tauto.
Defined.

(** X15. Each version of [Init] computes with part of the parameter
    array only.  CTB_109/init.c leaves the same array for any two
    parameter arrays that agree on M_EJ, R_EJ, N_H, U_AM, ETA, N_PI,
    THETA, PHI and BMAG: the explosion energy E_EJ has no effect.  The
    later revision leaves the same array for any two that agree on
    E_EJ, M_EJ, R_EJ, N_H, U_AM, W_C, N_PI and Temp: BMAG, THETA and
    PHI have no effect. *)
Theorem Init_parameters_used
    (m : Libm) (P : Pluto) (cfg : Config) (g1 g2 : param -> float)
    (now : Z) (rand_seq : Z -> nat -> Z) (us : state) (x1 x2 x3 : float) :
  ((forall p, In p used_CTB_109 -> g1 p = g2 p) ->
   CTB_109.Init m P cfg g1 now rand_seq us x1 x2 x3 =
   CTB_109.Init m P cfg g2 now rand_seq us x1 x2 x3) /\
  ((forall p, In p used_Part_001 -> g1 p = g2 p) ->
   Part_001.Init m P cfg g1 us x1 x2 x3 =
   Part_001.Init m P cfg g2 us x1 x2 x3).
Proof.
  split; intros H.
  - assert (E1 : g1 M_EJ = g2 M_EJ) by (apply H; cbn; tauto).
    assert (E2 : g1 R_EJ = g2 R_EJ) by (apply H; cbn; tauto).
    assert (E3 : g1 N_H = g2 N_H) by (apply H; cbn; tauto).
    assert (E4 : g1 U_AM = g2 U_AM) by (apply H; cbn; tauto).
    assert (E5 : g1 ETA = g2 ETA) by (apply H; cbn; tauto).
    assert (E6 : g1 N_PI = g2 N_PI) by (apply H; cbn; tauto).
    assert (E7 : g1 THETA = g2 THETA) by (apply H; cbn; tauto).
    assert (E8 : g1 PHI = g2 PHI) by (apply H; cbn; tauto).
    assert (E9 : g1 BMAG = g2 BMAG) by (apply H; cbn; tauto).
    rewrite !Init_CTB109_stages.
    unfold field_CTB_109, hydro_CTB_109, CTB_109.rho_c, CTB_109.r_c,
      CTB_109.rho_0, CTB_109.n_ISM, CTB_109.n_h, CTB_109.R_ej, CTB_109.M_ej,
      CTB_109.eta, CTB_109.n.
    rewrite E1, E2, E3, E4, E5, E6, E7, E8, E9. reflexivity.
  - assert (E1 : g1 E_EJ = g2 E_EJ) by (apply H; cbn; tauto).
    assert (E2 : g1 M_EJ = g2 M_EJ) by (apply H; cbn; tauto).
    assert (E3 : g1 R_EJ = g2 R_EJ) by (apply H; cbn; tauto).
    assert (E4 : g1 N_H = g2 N_H) by (apply H; cbn; tauto).
    assert (E5 : g1 U_AM = g2 U_AM) by (apply H; cbn; tauto).
    assert (E6 : g1 W_C = g2 W_C) by (apply H; cbn; tauto).
    assert (E7 : g1 N_PI = g2 N_PI) by (apply H; cbn; tauto).
    assert (E8 : g1 Temp = g2 Temp) by (apply H; cbn; tauto).
    rewrite !Init_part001_stages.
    unfold hydro_Part_001, Part_001.eta_at, Part_001.R_ch, Part_001.rho_ch,
      Part_001.t, Part_001.v_ej, Part_001.alpha, Part_001.fnc, Part_001.r_c,
      Part_001.T, Part_001.n_ISM, Part_001.n, Part_001.w_c, Part_001.u,
      Part_001.n_h, Part_001.R_ej, Part_001.M_ej, Part_001.E_ej.
    rewrite E1, E2, E3, E4, E5, E6, E7, E8. reflexivity.
Qed.

Lemma Init_parameters_used_witness :
  CTB_109.Init Sample.libm_F9 Sample.pluto_h definitions_h
    params_unit_other_energy 5 (Sample.rand_const 3) Sample.us_marked
    0.5 0.25 0
  = CTB_109.Init Sample.libm_F9 Sample.pluto_h definitions_h
      Sample.params_unit 5 (Sample.rand_const 3) Sample.us_marked 0.5 0.25 0
  /\
  Part_001.Init Sample.libm_F9 Sample.pluto_h definitions_h
    params_unit_other_field Sample.us_marked 0.5 0.25 0
  = Part_001.Init Sample.libm_F9 Sample.pluto_h definitions_h
      Sample.params_unit Sample.us_marked 0.5 0.25 0.
Proof.
  split.
  - apply (proj1 (Init_parameters_used Sample.libm_F9 Sample.pluto_h
                    definitions_h params_unit_other_energy Sample.params_unit
                    5 (Sample.rand_const 3) Sample.us_marked 0.5 0.25 0)).
    intros p Hp. cbn in Hp.
    destruct Hp as [E | [E | [E | [E | [E | [E | [E | [E | [E | []]]]]]]]]];
      subst p; reflexivity.
  - apply (proj2 (Init_parameters_used Sample.libm_F9 Sample.pluto_h
                    definitions_h params_unit_other_field Sample.params_unit
                    5 (Sample.rand_const 3) Sample.us_marked 0.5 0.25 0)).
    intros p Hp. cbn in Hp.
    destruct Hp as [E | [E | [E | [E | [E | [E | [E | [E | []]]]]]]]];
      subst p; reflexivity.
Defined.

End InitFrame.

(** * Properties of [BackgroundField] *)

Section BackgroundProperties.
Import Double Background Stages.
Open Scope float_scope.

(** After its first call [BackgroundField] never changes its statics. *)
Lemma BackgroundField_statics_settled
    (comps : components) (m : Libm) (P : Pluto) (g : param -> float)
    (st : statics) (x1 x2 x3 : float) (B0 : field) :
  first_call st = false ->
  fst (Background_CTB_109.BackgroundField comps m P g st x1 x2 x3 B0) = st.
Proof.
  intros H. unfold Background_CTB_109.BackgroundField. rewrite H. reflexivity.
Qed.

Lemma calls_settled
    (comps : components) (m : Libm) (P : Pluto) (st : statics)
    (cs : list ((param -> float) * (float * float * float) * field)) :
  first_call st = false ->
  Background_CTB_109.calls comps m P st cs = st.
Proof.
  intros H. induction cs as [| [[g [[x1 x2] x3]] B0] cs IH]; [reflexivity |].
  cbn [Background_CTB_109.calls].
  rewrite BackgroundField_statics_settled by exact H. exact IH.
Qed.

(** X13. [BackgroundField] of CTB_109/init.c samples the angles once:
    after a first call made under parameters g1, and any number of
    further calls, a call made under parameters g uses the strength
    g[BMAG] of its own time but the sines and cosines of g1[THETA] and
    g1[PHI]; a later change of THETA or PHI is not seen. *)
Theorem BackgroundField_angles_frozen
    (comps : components) (m : Libm) (P : Pluto)
    (g1 : param -> float) (y1 y2 y3 : float) (B1 : field)
    (cs : list ((param -> float) * (float * float * float) * field))
    (g : param -> float) (x1 x2 x3 : float) (B0 : field) :
  let theta1 := g1 THETA * CONST_PI P / 180.0 in
  let phi1 := g1 PHI * CONST_PI P / 180.0 in
  let st1 := fst (Background_CTB_109.BackgroundField comps m P g1
                    statics0 y1 y2 y3 B1) in
  let st := Background_CTB_109.calls comps m P st1 cs in
  let out := Background_CTB_109.BackgroundField comps m P g st x1 x2 x3 B0 in
  fst out = st1 /\
  snd out IDIR = g BMAG * sin m theta1 * cos m phi1 /\
  (comps <> COMP1 -> snd out JDIR = g BMAG * sin m theta1 * sin m phi1) /\
  (comps = COMP3 -> snd out KDIR = g BMAG * cos m theta1).
Proof.
  intros theta1 phi1 st1 st out.
  assert (Hst1 : st1 = {| first_call := false;
                          sth := sin m theta1; cth := cos m theta1;
                          sphi := sin m phi1; cphi := cos m phi1 |})
    by reflexivity.
  assert (Hst : st = st1).
  { subst st. apply calls_settled. rewrite Hst1. reflexivity. }
  subst out. rewrite Hst, Hst1.
  unfold Background_CTB_109.BackgroundField. cbn [first_call fst snd].
  destruct comps; cbn; repeat split; intros; try congruence; reflexivity.
Qed.

Lemma BackgroundField_angles_frozen_witness :
  snd (Background_CTB_109.BackgroundField COMP3 Sample.libm_F9 Sample.pluto_h
         params_later
         (Background_CTB_109.calls COMP3 Sample.libm_F9 Sample.pluto_h
            (fst (Background_CTB_109.BackgroundField COMP3 Sample.libm_F9
                    Sample.pluto_h params_first statics0 0 0 0 B0_marked))
            [(params_later, (1, 2, 3), B0_marked)])
         0.5 0.25 0 B0_marked) KDIR = 5.
Proof.
  destruct (BackgroundField_angles_frozen COMP3 Sample.libm_F9 Sample.pluto_h
              params_first 0 0 0 B0_marked
              [(params_later, (1, 2, 3), B0_marked)]
              params_later 0.5 0.25 0 B0_marked) as [_ [_ [_ H]]].
  rewrite (H eq_refl). vm_compute. reflexivity.
Defined.

(** X14. The first call of [BackgroundField] of CTB_109/init.c stores
    in each component it assigns the value [Init] of the same file
    writes to the matching us[BXn] when BACKGROUND_FIELD is off, for
    the same parameters; a component beyond COMPONENTS keeps its
    incoming value. *)
Theorem BackgroundField_matches_Init
    (comps : components) (m : Libm) (P : Pluto) (cfg : Config)
    (g_inputParam : param -> float)
    (now : Z) (rand_seq : Z -> nat -> Z) (us : state) (x1 x2 x3 : float)
    (y1 y2 y3 : float) (B0 : field) :
  BACKGROUND_FIELD cfg = false ->
  let us' := CTB_109.Init m P cfg g_inputParam now rand_seq us x1 x2 x3 in
  let B := snd (Background_CTB_109.BackgroundField comps m P g_inputParam
                  statics0 y1 y2 y3 B0) in
  B IDIR = us' BX1 /\
  B JDIR = (match comps with COMP1 => B0 JDIR | _ => us' BX2 end) /\
  B KDIR = (match comps with COMP3 => us' BX3 | _ => B0 KDIR end).
Proof.
  intros Hb us' B. subst us' B.
  rewrite Init_CTB109_stages.
  rewrite !potential_field_off by (try exact Hb; cbn; tauto).
  unfold Background_CTB_109.BackgroundField, field_CTB_109. cbv zeta.
  destruct comps; cbn; repeat split; reflexivity.
Qed.

Lemma BackgroundField_matches_Init_witness :
  snd (Background_CTB_109.BackgroundField definitions_h_components
         Sample.libm_F9 Sample.pluto_h params_first statics0 0.5 0.25 0
         B0_marked) IDIR
  = CTB_109.Init Sample.libm_F9 Sample.pluto_h definitions_h params_first
      5 (Sample.rand_const 3) Sample.us_marked 0.5 0.25 0 BX1.
Proof.
  exact (proj1 (BackgroundField_matches_Init definitions_h_components
                  Sample.libm_F9 Sample.pluto_h definitions_h params_first
                  5 (Sample.rand_const 3) Sample.us_marked 0.5 0.25 0
                  0.5 0.25 0 B0_marked eq_refl)).
Defined.

End BackgroundProperties.
